(** * gen-obs: laboratory rows to FHIR Observation records and a Bundle

    A shallow embedding of [main.py] ([create_observations] and the
    helpers it relies on) and the properties of the record construction,
    the bundle pass and the narrative pass.

    Conventions of the embedding.
    - A Python [str] is a [string]; the model covers the strings made of
      one-byte (ASCII) characters.
    - A cell of the data frame is an [option string]: [None] is the
      missing value ([NaN]) that [pd.notna] tests for.
    - A Python [float] is a [spec_float] of the binary64 format, the
      IEEE-754 specification of the standard library.
    - A [dict] is an association list in insertion order.
    - The logger is a list of entries, oldest first.
    - The terminology server, [uuid.uuid4] and the file system are the
      environment: their answers are read from an [Env] record. *)

From Stdlib Require Import ZArith List String Ascii Bool Lia SpecFloat Sorted.
Import ListNotations.

Local Open Scope list_scope.
Local Open Scope string_scope.

(** ** Exceptions and results

    The exception classes the code meets.  [ValueError] is the one the
    inner handlers catch; every class below derives from [Exception],
    which the handler of each loop catches. *)

Inductive exn : Type :=
| ValueError (msg : string)
| OverflowError (msg : string)
| TypeError (msg : string)
| KeyError (msg : string)
| OtherError (msg : string).

(** [str(e)] *)
Definition exn_str (e : exn) : string :=
  match e with
  | ValueError m | OverflowError m | TypeError m | KeyError m
  | OtherError m => m
  end.

Definition is_ValueError (e : exn) : bool :=
  match e with
  | ValueError _ => true
  | _ => false
  end.

Inductive result (A : Type) : Type :=
| Ok (a : A)
| Raise (e : exn).

Arguments Ok {A} a.
Arguments Raise {A} e.

(** ** Strings as Python sees them *)

Module PyStr.

Definition chars (s : string) : list ascii := list_ascii_of_string s.
Definition of_chars (l : list ascii) : string := string_of_list_ascii l.

(** [bool(s)] for a [str]: the empty string is falsy. *)
Definition truthy (s : string) : bool :=
  match s with
  | EmptyString => false
  | String _ _ => true
  end.

Definition code (c : ascii) : nat := nat_of_ascii c.

Definition is_digit (c : ascii) : bool :=
  (48 <=? code c)%nat && (code c <=? 57)%nat.

Definition digit_val (c : ascii) : Z := Z.of_nat (code c) - 48.

(** [str.isspace] on one-byte characters: TAB..CR, FS..US and SPACE. *)
Definition str_isspace (c : ascii) : bool :=
  ((9 <=? code c)%nat && (code c <=? 13)%nat)
  || ((28 <=? code c)%nat && (code c <=? 32)%nat).

(** [Py_ISSPACE], the test [float] strips with: TAB..CR and SPACE. *)
Definition c_isspace (c : ascii) : bool :=
  ((9 <=? code c)%nat && (code c <=? 13)%nat) || (code c =? 32)%nat.

Fixpoint lstrip_with (sp : ascii -> bool) (l : list ascii) : list ascii :=
  match l with
  | [] => []
  | c :: r => if sp c then lstrip_with sp r else l
  end.

Definition rstrip_with (sp : ascii -> bool) (l : list ascii) : list ascii :=
  rev (lstrip_with sp (rev l)).

(** [s.strip()] *)
Definition strip (s : string) : string :=
  of_chars (rstrip_with str_isspace (lstrip_with str_isspace (chars s))).

(** [s.replace(a, b)] for one-character [a] and [b]. *)
Fixpoint replace_char (a b : ascii) (s : string) : string :=
  match s with
  | EmptyString => EmptyString
  | String c r =>
      String (if Ascii.eqb c a then b else c) (replace_char a b r)
  end.

Definition lower (c : ascii) : ascii :=
  if (65 <=? code c)%nat && (code c <=? 90)%nat
  then ascii_of_nat (code c + 32) else c.

Definition digit_char (d : nat) : ascii := ascii_of_nat (48 + d).

(** Decimal digits of a natural number, most significant first; the
    fuel bounds the number of digits. *)
Fixpoint digits_fuel (fuel n : nat) (acc : list ascii) : list ascii :=
  match fuel with
  | O => acc
  | S f =>
      let acc' := digit_char (n mod 10) :: acc in
      if (n <? 10)%nat then acc' else digits_fuel f (n / 10) acc'
  end.

(** [str(n)] for a non-negative [int]. *)
Definition of_nat (n : nat) : string := of_chars (digits_fuel (S n) n []).

(** [f"{n:0{w}d}"]: at least [w] digits, padded with zeros on the left. *)
Definition zero_pad (w n : nat) : string :=
  let d := digits_fuel (S n) n [] in
  of_chars (repeat "0"%char (w - List.length d) ++ d)%list.

End PyStr.

(** ** [float(s)], comparison with an [int], [round] *)

Module PyFloat.

Local Open Scope Z_scope.

Definition prec : Z := 53.
Definition emax : Z := 1024.

Definition of_Z (z : Z) : spec_float := binary_normalize prec emax z 0 false.

(** Underscores of a numeric literal: each one stands between two
    digits; they are dropped before the conversion
    ([_Py_string_to_number_with_underscores]). *)
Fixpoint drop_underscores (prev : option ascii) (l : list ascii)
  : option (list ascii) :=
  match l with
  | [] =>
      match prev with
      | Some "_"%char => None
      | _ => Some []
      end
  | c :: r =>
      if Ascii.eqb c "_"%char then
        match prev with
        | Some p => if PyStr.is_digit p then drop_underscores (Some c) r else None
        | None => None
        end
      else
        match prev with
        | Some "_"%char =>
            if PyStr.is_digit c
            then option_map (cons c) (drop_underscores (Some c) r)
            else None
        | _ => option_map (cons c) (drop_underscores (Some c) r)
        end
  end.

Definition has_underscore (l : list ascii) : bool :=
  existsb (fun c => Ascii.eqb c "_"%char) l.

(** A run of decimal digits at the head of the input, and the rest. *)
Fixpoint span_digits (l : list ascii) : list ascii * list ascii :=
  match l with
  | c :: r =>
      if PyStr.is_digit c
      then let (d, t) := span_digits r in (c :: d, t)
      else ([], l)
  | [] => ([], [])
  end.

Definition digits_val (d : list ascii) : Z :=
  fold_left (fun acc c => 10 * acc + PyStr.digit_val c)%Z d 0%Z.

(** An optional sign: [true] for [-]. *)
Definition take_sign (l : list ascii) : bool * list ascii :=
  match l with
  | "-"%char :: r => (true, r)
  | "+"%char :: r => (false, r)
  | _ => (false, l)
  end.

(** [_Py_parse_inf_or_nan]: [inf], [infinity] or [nan], any case. *)
Definition parse_inf_or_nan (l : list ascii) : option spec_float :=
  let (neg, r) := take_sign l in
  let w := PyStr.of_chars (map PyStr.lower r) in
  if String.eqb w "inf" || String.eqb w "infinity" then Some (S754_infinity neg)
  else if String.eqb w "nan" then Some S754_nan
  else None.

(** The double nearest to [(-1)^neg * m * 10^e], ties to even;
    overflow gives an infinity, underflow a subnormal or a zero. *)
Definition of_decimal (neg : bool) (m e : Z) : spec_float :=
  match m with
  | Zpos p =>
      let num := Z.to_pos (Zpos p * 10 ^ Z.max e 0) in
      let den := Z.to_pos (10 ^ Z.max (- e) 0) in
      SFdiv prec emax (S754_finite neg num 0) (S754_finite false den 0)
  | _ => S754_zero neg
  end.

(** The exponent part: absent, or [e]/[E], a sign and one digit at
    least, up to the end of the input. *)
Definition parse_exponent (l : list ascii) : option Z :=
  match l with
  | [] => Some 0
  | c :: r =>
      if Ascii.eqb c "e"%char || Ascii.eqb c "E"%char then
        let (neg, r1) := take_sign r in
        let (d, t) := span_digits r1 in
        match d, t with
        | _ :: _, [] => Some (if neg then - digits_val d else digits_val d)
        | _, _ => None
        end
      else None
  end.

(** [_Py_dg_strtod] on input it must consume whole: sign, digits with
    an optional point (one digit at least), exponent. *)
Definition parse_decimal (l : list ascii) : option spec_float :=
  let (neg, r) := take_sign l in
  let (ip, r1) := span_digits r in
  let '(fp, r2) :=
    match r1 with
    | "."%char :: t => span_digits t
    | _ => ([], r1)
    end in
  match (ip ++ fp)%list with
  | [] => None
  | ds =>
      match parse_exponent r2 with
      | Some e => Some (of_decimal neg (digits_val ds) (e - Z.of_nat (List.length fp)))
      | None => None
      end
  end.

(** [float_from_string_inner]: blanks stripped on both sides, then a
    decimal literal, an infinity or a NaN. *)
Definition from_stripped (l : list ascii) : option spec_float :=
  match PyStr.rstrip_with PyStr.c_isspace (PyStr.lstrip_with PyStr.c_isspace l) with
  | [] => None
  | t =>
      match parse_decimal t with
      | Some f => Some f
      | None => parse_inf_or_nan t
      end
  end.

(** [float(s)]: [None] stands for [ValueError]. *)
Definition float_of_string (s : string) : option spec_float :=
  let l := PyStr.chars s in
  if has_underscore l then
    match drop_underscores None l with
    | Some l' => from_stripped l'
    | None => None
    end
  else from_stripped l.

(** [x > n] for a float [x] and an [int] [n] that a double holds exactly. *)
Definition gt_int (x : spec_float) (n : Z) : bool := SFltb (of_Z n) x.

(** [x <= n], likewise. *)
Definition le_int (x : spec_float) (n : Z) : bool := SFleb x (of_Z n).

(** Nearest integer to [m * 2^e], ties to even. *)
Definition round_half_even (m : positive) (e : Z) : Z :=
  match e with
  | Zneg k =>
      let d := 2 ^ Zpos k in
      let q := Zpos m / d in
      let r := Zpos m mod d in
      match 2 * r ?= d with
      | Lt => q
      | Gt => q + 1
      | Eq => if Z.even q then q else q + 1
      end
  | _ => Zpos m * 2 ^ e
  end.

(** [round(x)] with one argument: an [int], or an exception for a
    value that is not finite. *)
Definition py_round (x : spec_float) : result Z :=
  match x with
  | S754_zero _ => Ok 0
  | S754_finite s m e =>
      Ok (if s then - round_half_even m e else round_half_even m e)
  | S754_infinity _ => Raise (OverflowError "cannot convert float infinity to integer")
  | S754_nan => Raise (ValueError "cannot convert float NaN to integer")
  end.

End PyFloat.

(** ** [datetime.strptime(s, '%m/%d/%Y')], [isoformat], [strftime] *)

Module PyDate.

Record date : Type := mkdate { year : nat; month : nat; day : nat }.

Definition is_leap (y : nat) : bool :=
  (y mod 4 =? 0)%nat && (negb (y mod 100 =? 0)%nat || (y mod 400 =? 0)%nat).

Definition days_in_month (y m : nat) : nat :=
  match m with
  | 2 => if is_leap y then 29 else 28
  | 4 | 6 | 9 | 11 => 30
  | _ => 31
  end.

(** The ways a piece of the pattern matches a prefix of the input, in
    the order the regular-expression engine tries them, each with the
    value read and the input left. *)
Definition matches (A : Type) : Type := list (A * list ascii).

Definition between (lo hi : nat) (c : ascii) : bool :=
  (lo <=? PyStr.code c)%nat && (PyStr.code c <=? hi)%nat.

Definition dig (c : ascii) : nat := PyStr.code c - 48.

(** Two characters, the first in [lo1..hi1], the second in [lo2..hi2]. *)
Definition two (lo1 hi1 lo2 hi2 : nat) (l : list ascii) : matches nat :=
  match l with
  | c1 :: c2 :: r =>
      if between lo1 hi1 c1 && between lo2 hi2 c2
      then [(10 * dig c1 + dig c2, r)] else []
  | _ => []
  end.

(** One character in [lo..hi]. *)
Definition one (lo hi : nat) (l : list ascii) : matches nat :=
  match l with
  | c :: r => if between lo hi c then [(dig c, r)] else []
  | _ => []
  end.

(** A blank, then one character in [lo..hi]. *)
Definition blank_one (lo hi : nat) (l : list ascii) : matches nat :=
  match l with
  | " "%char :: r => one lo hi r
  | _ => []
  end.

(** [%m] is [1[0-2]|0[1-9]|[1-9]]. *)
Definition re_m (l : list ascii) : matches nat :=
  (two 49 49 48 50 l ++ two 48 48 49 57 l ++ one 49 57 l)%list.

(** [%d] is [3[0-1]|[1-2]\d|0[1-9]|[1-9]| [1-9]]. *)
Definition re_d (l : list ascii) : matches nat :=
  (two 51 51 48 49 l ++ two 49 50 48 57 l ++ two 48 48 49 57 l
     ++ one 49 57 l ++ blank_one 49 57 l)%list.

(** [%Y] is [\d\d\d\d]. *)
Definition re_Y (l : list ascii) : matches nat :=
  match l with
  | a :: b :: c :: d :: r =>
      if PyStr.is_digit a && PyStr.is_digit b && PyStr.is_digit c
         && PyStr.is_digit d
      then [(1000 * dig a + 100 * dig b + 10 * dig c + dig d, r)] else []
  | _ => []
  end.

Definition re_slash (l : list ascii) : matches unit :=
  match l with
  | "/"%char :: r => [(tt, r)]
  | _ => []
  end.

Definition and_then {A B : Type} (p : matches A)
    (k : A -> list ascii -> matches B) : matches B :=
  flat_map (fun ar => k (fst ar) (snd ar)) p.

(** [format_regex.match(data_string)]: the first way the whole pattern
    matches at the start of the input. *)
Definition re_match (l : list ascii) : option (nat * nat * nat * list ascii) :=
  hd_error
    (and_then (re_m l) (fun m r1 =>
     and_then (re_slash r1) (fun _ r2 =>
     and_then (re_d r2) (fun d r3 =>
     and_then (re_slash r3) (fun _ r4 =>
     and_then (re_Y r4) (fun y r5 => [((m, d, y), r5)])))))).

(** [datetime.strptime(s, '%m/%d/%Y')]; [None] stands for the
    [ValueError] of an input that does not match, leaves characters
    over or names no day of the calendar. *)
Definition strptime_mdY (s : string) : option date :=
  match re_match (PyStr.chars s) with
  | Some (m, d, y, []) =>
      if (1 <=? y)%nat && (d <=? days_in_month y m)%nat
      then Some (mkdate y m d) else None
  | _ => None
  end.

(** [d.isoformat()] *)
Definition isoformat (d : date) : string :=
  PyStr.zero_pad 4 (year d) ++ "-" ++ PyStr.zero_pad 2 (month d)
    ++ "-" ++ PyStr.zero_pad 2 (day d).

(** [%Y] of the C library: four digits at least where it pads, the
    bare number where it does not (the two agree from year 1000 on). *)
Definition strftime_Y (pads : bool) (y : nat) : string :=
  if pads then PyStr.zero_pad 4 y else PyStr.of_nat y.

(** [d.strftime('%d/%m/%Y')] *)
Definition strftime_dmY (pads : bool) (d : date) : string :=
  PyStr.zero_pad 2 (day d) ++ "/" ++ PyStr.zero_pad 2 (month d)
    ++ "/" ++ strftime_Y pads (year d).

End PyDate.

(** ** JSON values and dictionaries *)

#[warnings="-register-all"]
Inductive json : Type :=
| JNull
| JStr (s : string)
| JInt (z : Z)
| JFloat (f : spec_float)
| JList (l : list json)
| JDict (d : list (string * json)).

(** A [dict] with [str] keys, in insertion order. *)
Definition dict : Type := list (string * json).

(** [None] or a [str]. *)
Definition json_of_opt (o : option string) : json :=
  match o with
  | Some s => JStr s
  | None => JNull
  end.

Module Dict.

Fixpoint get (k : string) (d : dict) : option json :=
  match d with
  | [] => None
  | (k', v) :: r => if String.eqb k k' then Some v else get k r
  end.

(** [k in d] *)
Definition has (k : string) (d : dict) : bool :=
  match get k d with
  | Some _ => true
  | None => false
  end.

(** [d[k] = v]: the value is replaced where the key stands, or the
    pair is added at the end. *)
Fixpoint set (k : string) (v : json) (d : dict) : dict :=
  match d with
  | [] => [(k, v)]
  | (k', v') :: r =>
      if String.eqb k k' then (k', v) :: r else (k', v') :: set k v r
  end.

(** [{**a, **b}] *)
Definition merge (a b : dict) : dict :=
  fold_left (fun acc kv => set (fst kv) (snd kv) acc) b a.

(** [bool(d)] *)
Definition truthy {A : Type} (l : list A) : bool :=
  match l with
  | [] => false
  | _ :: _ => true
  end.

End Dict.

(** ** Rows, configuration, environment *)

(** A cell of the frame read with [dtype=str]: a [str], or the missing
    value. *)
Definition cell : Type := option string.

(** [pd.notna(c) and c] *)
Definition present (c : cell) : bool :=
  match c with
  | Some s => PyStr.truthy s
  | None => false
  end.

(** [f"{c}"]: the missing value prints as [nan]. *)
Definition cell_str (c : cell) : string :=
  match c with
  | Some s => s
  | None => "nan"
  end.

(** One row of the table.  The column [ucum] is the one the code tests
    for (['ucum' in row]): [None] is a table without it. *)
Record Row : Type := mkRow {
  code : cell;
  system : cell;
  text_description : cell;
  value : cell;
  units : cell;
  ucum : option cell;
  LowRefRange : cell;
  HighRefRange : cell;
  RR_Display : cell;
  dateobserved : cell
}.

(** [config.json]: [config.get('subject', None)] and
    [config.get('performer', None)]. *)
Record Config : Type := mkConfig {
  subject_ref : option string;
  performer_val : option string
}.

(** The three loops over the rows. *)
Inductive pass : Type := FilePass | BundlePass | HistoryPass.

(** What the run does not decide: the answer of the terminology server
    to the lookup of a pass for a row (an exception of the request, or
    the display [get_concept_display] returns), the identifiers
    [uuid.uuid4] draws, the outcome of opening an output file, the clock
    and the C library's [%Y]. *)
Record Env : Type := mkEnv {
  lookup : pass -> nat -> string -> string -> result (option string);
  uuid4 : pass -> nat -> string;
  bundle_uuid : string;
  open_file : string -> option exn;
  timestamp : string;
  libc_pads_year : bool
}.

(** ** The logger and the computations that use it *)

Inductive level : Type := INFO | WARNING | ERROR.

Definition log_entry : Type := (level * string)%type.

(** A computation that logs and may raise: from the log so far to an
    outcome and the log after.  What was logged before an exception
    stays logged. *)
Definition M (A : Type) : Type := list log_entry -> result A * list log_entry.

Definition ret {A : Type} (a : A) : M A := fun l => (Ok a, l).

Definition bind {A B : Type} (m : M A) (k : A -> M B) : M B :=
  fun l =>
    match m l with
    | (Ok a, l') => k a l'
    | (Raise e, l') => (Raise e, l')
    end.

Definition lift {A : Type} (r : result A) : M A := fun l => (r, l).

Definition logger (lv : level) (msg : string) : M unit :=
  fun l => (Ok tt, (l ++ [(lv, msg)])%list).

(** [try: body except ValueError: handler] *)
Definition try_except_ValueError {A : Type} (body handler : M A) : M A :=
  fun l =>
    match body l with
    | (Raise (ValueError _), l') => handler l'
    | r => r
    end.

(** [try: body except Exception as e: handler(e)] *)
Definition try_except_Exception {A : Type} (body : M A) (handler : exn -> M A)
  : M A :=
  fun l =>
    match body l with
    | (Raise e, l') => handler e l'
    | r => r
    end.

Declare Scope py_scope.
Delimit Scope py_scope with py.
Notation "x <- m ;; k" := (bind m (fun x => k))
  (at level 61, m at next level, right associativity) : py_scope.
Notation "m ;;; k" := (bind m (fun _ => k))
  (at level 61, right associativity) : py_scope.
Local Open Scope py_scope.

(** ** [get_concept_display]

    The request and the reading of the answer belong to the
    environment.  The query is built first: [parse.quote] of a missing
    [system] and the concatenation of a missing [code] raise
    [TypeError] before any request is made. *)

Definition dq : string := String (ascii_of_nat 34) EmptyString.
Definition nl : string := String (ascii_of_nat 10) EmptyString.

Definition get_concept_display (env : Env) (p : pass) (index : nat)
    (c s : cell) : result (option string) :=
  match s with
  | None => Raise (TypeError "quote_from_bytes() expected bytes")
  | Some sys =>
      match c with
      | None =>
          Raise (TypeError ("can only concatenate str (not " ++ dq ++ "float"
                              ++ dq ++ ") to str"))
      | Some cd => lookup env p index cd sys
      end
  end.

(** ** One Observation record

    The statements of the loop body after the lookup, which the file
    pass and the bundle pass share word for word. *)

(** A cell stored in a record: the missing value is the float NaN. *)
Definition json_of_cell (c : cell) : json :=
  match c with
  | Some s => JStr s
  | None => JFloat S754_nan
  end.

Definition laboratory_category : json :=
  JList [JDict [("coding",
    JList [JDict [("system", JStr "http://terminology.hl7.org/CodeSystem/observation-category");
                  ("code", JStr "laboratory");
                  ("display", JStr "Laboratory")]])]].

(** The dictionary literal the record starts from. *)
Definition initial_obs_dict (cfg : Config) (row : Row) (obs_id : string)
    (display : option string) : dict :=
  [("resourceType", JStr "Observation");
   ("id", JStr obs_id);
   ("status", JStr "final");
   ("category", laboratory_category);
   ("code", JDict [("coding",
                     JList [JDict [("system", json_of_cell (system row));
                                   ("code", json_of_cell (code row));
                                   ("display", json_of_opt display)]]);
                   ("text", JStr match text_description row with
                                 | Some t => PyStr.strip t
                                 | None => EmptyString
                                 end)]);
   ("subject", JDict [("reference", json_of_opt (subject_ref cfg))])].

Definition data_absent_performer : json :=
  JList [JDict [("extension",
    JList [JDict [("url", JStr "http://hl7.org/fhir/StructureDefinition/data-absent-reason");
                  ("valueCode", JStr "unknown")]])]].

(** [if performer_val == "unknown": ... elif performer_val: ...] *)
Definition add_performer (cfg : Config) (obs : dict) : dict :=
  match performer_val cfg with
  | Some p =>
      if String.eqb p "unknown" then Dict.set "performer" data_absent_performer obs
      else if PyStr.truthy p
           then Dict.set "performer" (JList [JDict [("reference", JStr p)]]) obs
           else obs
  | None => obs
  end.

(** [unit_str]: the stripped [units], or the empty string. *)
Definition unit_str (row : Row) : string :=
  match units row with
  | Some u => PyStr.strip u
  | None => EmptyString
  end.

(** [ucum_code]: the stripped [ucum] when the column is there, holds a
    value and is not blank; else the stripped [units]; else empty. *)
Definition ucum_code (row : Row) : string :=
  match ucum row with
  | Some (Some u) =>
      if PyStr.truthy (PyStr.strip u) then PyStr.strip u else unit_str row
  | _ => unit_str row
  end.

Definition units_of_measure : string := "http://unitsofmeasure.org".

(** The unit fields of the value: [value_metadata]. *)
Definition value_metadata (uc us : string) : dict :=
  let md := [] in
  let md := if PyStr.truthy uc
            then Dict.set "code" (JStr uc) (Dict.set "system" (JStr units_of_measure) md)
            else md in
  if PyStr.truthy us then Dict.set "unit" (JStr us) md else md.

(** The unit fields of the low bound: [low_metadata]. *)
Definition low_metadata (uc us : string) : dict :=
  let md := [] in
  let md := if PyStr.truthy uc
            then Dict.set "code" (JStr uc) (Dict.set "system" (JStr units_of_measure) md)
            else md in
  if PyStr.truthy us then Dict.set "unit" (JStr us) md else md.

(** The unit fields of the high bound: [high_metadata]. *)
Definition high_metadata (uc us : string) : dict :=
  let md := [] in
  let md := if PyStr.truthy uc
            then Dict.set "code" (JStr uc) (Dict.set "system" (JStr units_of_measure) md)
            else md in
  if PyStr.truthy us then Dict.set "unit" (JStr us) md else md.

(** [float(s)] as a computation: [ValueError] where it does not parse. *)
Definition py_float (s : string) : result spec_float :=
  match PyFloat.float_of_string s with
  | Some f => Ok f
  | None => Raise (ValueError ("could not convert string to float: '" ++ s ++ "'"))
  end.

(** [datetime.strptime(s, '%m/%d/%Y')] as a computation. *)
Definition py_strptime (s : string) : result PyDate.date :=
  match PyDate.strptime_mdY s with
  | Some d => Ok d
  | None => Raise (ValueError ("time data '" ++ s ++ "' does not match format '%m/%d/%Y'"))
  end.

(** The effective date. *)
Definition set_effective_date (index : nat) (row : Row) (obs : dict) : M dict :=
  match dateobserved row with
  | Some s =>
      if PyStr.truthy s then
        try_except_ValueError
          (date_obj <- lift (py_strptime s) ;;
           ret (Dict.set "effectiveDateTime" (JStr (PyDate.isoformat date_obj)) obs))
          (logger WARNING ("Invalid date format for row " ++ PyStr.of_nat index
                             ++ ": " ++ s) ;;;
           ret obs)
      else ret obs
  | None => ret obs
  end.

(** [abx_map]: the susceptibility codes and their displays. *)
Definition abx_map : list (string * (string * string)) :=
  [("S", ("S", "Susceptible"));
   ("I", ("I", "Intermediate"));
   ("R", ("R", "Resistant"))].

Fixpoint abx_lookup (val : string) (m : list (string * (string * string)))
  : option (string * string) :=
  match m with
  | [] => None
  | (k, v) :: r => if String.eqb val k then Some v else abx_lookup val r
  end.

Definition interpretation_system : string :=
  "http://terminology.hl7.org/CodeSystem/v3-ObservationInterpretation".

(** The value: a quantity, a coded concept or a string. *)
Definition set_value (index : nat) (row : Row) (uc us : string) (obs : dict)
  : M dict :=
  match value row with
  | Some v =>
      if PyStr.truthy v then
        try_except_ValueError
          (value_num <- lift (py_float v) ;;
           value_num <- (if PyFloat.gt_int value_num 9
                         then z <- lift (PyFloat.py_round value_num) ;; ret (JInt z)
                         else ret (JFloat value_num)) ;;
           let value_quantity := Dict.set "value" value_num [] in
           ret (Dict.set "valueQuantity"
                  (JDict (Dict.merge value_quantity (value_metadata uc us))) obs))
          (let val := PyStr.strip v in
           match abx_lookup val abx_map with
           | Some cd =>
               ret (Dict.set "valueCodeableConcept"
                      (JDict [("coding",
                         JList [JDict [("system", JStr interpretation_system);
                                       ("code", JStr (fst cd));
                                       ("display", JStr (snd cd))]])]) obs)
           | None =>
               if PyStr.truthy val then ret (Dict.set "valueString" (JStr val) obs)
               else logger WARNING ("Invalid value for row " ++ PyStr.of_nat index
                                      ++ ": " ++ v) ;;;
                    ret obs
           end)
      else ret obs
  | None => ret obs
  end.

(** The low bound of the reference range. *)
Definition set_low (index : nat) (row : Row) (uc us : string) (ref_range : dict)
  : M dict :=
  match LowRefRange row with
  | Some s =>
      if PyStr.truthy s then
        try_except_ValueError
          (low_val <- lift (py_float s) ;;
           let low_quantity := Dict.set "value" (JFloat low_val) [] in
           ret (Dict.set "low" (JDict (Dict.merge low_quantity (low_metadata uc us)))
                  ref_range))
          (logger WARNING ("Invalid low reference range for row "
                             ++ PyStr.of_nat index ++ ": " ++ s) ;;;
           ret ref_range)
      else ret ref_range
  | None => ret ref_range
  end.

(** The high bound of the reference range. *)
Definition set_high (index : nat) (row : Row) (uc us : string) (ref_range : dict)
  : M dict :=
  match HighRefRange row with
  | Some s =>
      if PyStr.truthy s then
        try_except_ValueError
          (high_val <- lift (py_float s) ;;
           let high_quantity := Dict.set "value" (JFloat high_val) [] in
           ret (Dict.set "high" (JDict (Dict.merge high_quantity (high_metadata uc us)))
                  ref_range))
          (logger WARNING ("Invalid high reference range for row "
                             ++ PyStr.of_nat index ++ ": " ++ s) ;;;
           ret ref_range)
      else ret ref_range
  | None => ret ref_range
  end.

(** The reference range, when a bound is given. *)
Definition set_reference_range (index : nat) (row : Row) (uc us : string)
    (obs : dict) : M dict :=
  if present (LowRefRange row) || present (HighRefRange row) then
    ref_range <- set_low index row uc us [] ;;
    ref_range <- set_high index row uc us ref_range ;;
    let ref_range :=
      match RR_Display row with
      | Some t => if PyStr.truthy t then Dict.set "text" (JStr t) ref_range
                  else ref_range
      | None => ref_range
      end in
    ret (Dict.set "referenceRange" (JList [JDict ref_range]) obs)
  else ret obs.

(** The record of a row, from the display the lookup returned. *)
Definition build_obs_dict (cfg : Config) (index : nat) (row : Row)
    (obs_id : string) (display : option string) : M dict :=
  let obs := initial_obs_dict cfg row obs_id display in
  let obs := add_performer cfg obs in
  let uc := ucum_code row in
  let us := unit_str row in
  obs <- set_effective_date index row obs ;;
  obs <- set_value index row uc us obs ;;
  set_reference_range index row uc us obs.

(** ** The three loops *)

(** [df.iterrows()]: the rows with their index, from 0. *)
Definition iterrows (rows : list Row) : list (nat * Row) :=
  combine (seq 0 (List.length rows)) rows.

(** [for index, row in df.iterrows(): body], the state the body changes
    passed along. *)
Fixpoint for_each {S : Type} (body : nat -> Row -> S -> M S)
    (rows : list (nat * Row)) (s : S) : M S :=
  match rows with
  | [] => ret s
  | (index, row) :: rest => s' <- body index row s ;; for_each body rest s'
  end.

(** [os.path.join(a, b)] for a relative [b]. *)
Definition path_join (a b : string) : string :=
  match rev (PyStr.chars a) with
  | [] => b
  | "/"%char :: _ => a ++ b
  | _ => a ++ "/" ++ b
  end.

(** [open(filepath, 'w')] and [json.dump]: the file as written. *)
Definition write_json (env : Env) (filepath : string) (d : dict)
  : M (string * dict) :=
  match open_file env filepath with
  | Some e => lift (Raise e)
  | None => ret (filepath, d)
  end.

(** The statements under [try] in the first loop: the file of a row. *)
Definition file_row_body (env : Env) (cfg : Config) (outdir : string)
    (index : nat) (row : Row) : M (string * dict) :=
  display <- lift (get_concept_display env FilePass index (code row) (system row)) ;;
  obs_dict <- build_obs_dict cfg index row (uuid4 env FilePass index) display ;;
  c <- lift match code row with
            | Some c => Ok c
            | None => Raise (OtherError "'float' object has no attribute 'replace'")
            end ;;
  let safe_code := PyStr.replace_char "\"%char "-"%char
                     (PyStr.replace_char "/"%char "-"%char c) in
  let filename := "observation_" ++ safe_code ++ "_" ++ PyStr.zero_pad 3 index
                    ++ ".json" in
  f <- write_json env (path_join outdir filename) obs_dict ;;
  logger INFO ("Created observation file: " ++ filename) ;;;
  ret f.

(** The body of the first loop; [written] is what the loop has put on
    disk so far. *)
Definition file_row (env : Env) (cfg : Config) (outdir : string)
    (index : nat) (row : Row) (written : list (string * dict))
  : M (list (string * dict)) :=
  try_except_Exception
    (f <- file_row_body env cfg outdir index row ;;
     ret (written ++ [f])%list)
    (fun e =>
       logger ERROR ("Error processing row " ++ PyStr.of_nat index ++ ": "
                       ++ exn_str e) ;;;
       ret written).

(** The two lists the second loop fills. *)
Record BundleState : Type := mkBundleState {
  bundle_entries : list json;
  result_history_entries : list json
}.

(** The statements under [try] in the second loop, up to the two
    [append]: the bundle entry of a row and its back-reference. *)
Definition bundle_row_body (env : Env) (cfg : Config) (index : nat) (row : Row)
  : M (json * json) :=
  display <- lift (get_concept_display env BundlePass index (code row) (system row)) ;;
  let obs_id := uuid4 env BundlePass index in
  obs_dict <- build_obs_dict cfg index row obs_id display ;;
  let bundle_entry := JDict [("fullUrl", JStr ("urn:uuid:" ++ obs_id));
                             ("resource", JDict obs_dict)] in
  ret (bundle_entry, JDict [("reference", JStr ("urn:uuid:" ++ obs_id))]).

(** The body of the second loop. *)
Definition bundle_row (env : Env) (cfg : Config) (index : nat) (row : Row)
    (st : BundleState) : M BundleState :=
  try_except_Exception
    (er <- bundle_row_body env cfg index row ;;
     ret (mkBundleState
            (bundle_entries st ++ [fst er])%list
            (result_history_entries st ++ [snd er])%list))
    (fun e =>
       logger ERROR ("Error processing row " ++ PyStr.of_nat index
                       ++ " for bundle: " ++ exn_str e) ;;;
       ret st).

(** [row['ucum']] in the third loop, where no test for the column
    precedes it. *)
Definition row_ucum (row : Row) : result cell :=
  match ucum row with
  | Some c => Ok c
  | None => Raise (KeyError "'ucum'")
  end.

(** The line of the history table for a row. *)
Definition html_row (test_name value_str date_str : string) : string :=
  "                  <tr>"
    ++ nl
    ++ "                    <td>"
    ++ test_name
    ++ "</td>"
    ++ nl
    ++ "                    <td>"
    ++ value_str
    ++ "</td>"
    ++ nl
    ++ "                    <td>"
    ++ date_str
    ++ "</td>"
    ++ nl
    ++ "                  </tr>".

(** The statements under [try] in the third loop: the line of a row. *)
Definition history_row_body (env : Env) (index : nat) (row : Row) : M string :=
  display <- lift (get_concept_display env HistoryPass index (code row) (system row)) ;;
  let test_name :=
    match display with
    | Some d => if PyStr.truthy d then d else cell_str (text_description row)
    | None => cell_str (text_description row)
    end in
  value_str <-
    (if present (value row) then
       let value_str := cell_str (value row) in
       if present (units row) then ret (value_str ++ " " ++ cell_str (units row))
       else
         u <- lift (row_ucum row) ;;
         if present u then ret (value_str ++ " " ++ cell_str u)
         else ret value_str
     else ret EmptyString) ;;
  let date_str :=
    match dateobserved row with
    | Some s =>
        if PyStr.truthy s then
          match PyDate.strptime_mdY s with
          | Some date_obj => PyDate.strftime_dmY (libc_pads_year env) date_obj
          | None => s
          end
        else EmptyString
    | None => EmptyString
    end in
  ret (html_row test_name value_str date_str).

(** The body of the third loop. *)
Definition history_row (env : Env) (index : nat) (row : Row)
    (html_rows : list string) : M (list string) :=
  try_except_Exception
    (h <- history_row_body env index row ;;
     ret (html_rows ++ [h])%list)
    (fun e =>
       logger WARNING ("Error creating result history row for index "
                         ++ PyStr.of_nat index ++ ": " ++ exn_str e) ;;;
       ret html_rows).

(** The narrative of the section. *)
Definition history_div (html_rows : list string) : string :=
  "<div xmlns="
    ++ dq
    ++ "http://www.w3.org/1999/xhtml"
    ++ dq
    ++ ">\n              <table border="
    ++ dq
    ++ "1"
    ++ dq
    ++ ">\n                <thead>\n                  <tr>\n                    <th>Test Name</th>\n                    <th>Test Result</th>\n                    <th>Date</th>\n                  </tr>\n                </thead>\n                <tbody>\n"
    ++ String.concat EmptyString html_rows
    ++ "\n                </tbody>\n              </table>\n            </div>".

Definition result_history_section (html_rows : list string)
    (entries : list json) : dict :=
  [("title", JStr "Result History");
   ("code", JDict [("coding", JList [JDict [("system", JStr "http://loinc.org");
                                            ("code", JStr "30954-2")]])]);
   ("text", JDict [("status", JStr "generated");
                   ("div", JStr (history_div html_rows))]);
   ("entry", JList entries)].

(** The bundle, with its section when there is a back-reference. *)
Definition make_bundle (env : Env) (st : BundleState) (html_rows : list string)
  : dict :=
  let bundle := [("resourceType", JStr "Bundle");
                 ("id", JStr (bundle_uuid env));
                 ("type", JStr "collection");
                 ("entry", JList (bundle_entries st))] in
  if Dict.truthy (result_history_entries st)
  then Dict.set "section"
         (JList [JDict (result_history_section html_rows (result_history_entries st))])
         bundle
  else bundle.

(** The first loop: one file per row. *)
Definition file_pass (env : Env) (cfg : Config) (outdir : string)
    (rows : list Row) : M (list (string * dict)) :=
  for_each (file_row env cfg outdir) (iterrows rows) [].

(** The second loop: the entries of the bundle. *)
Definition bundle_pass (env : Env) (cfg : Config) (rows : list Row)
  : M BundleState :=
  for_each (bundle_row env cfg) (iterrows rows) (mkBundleState [] []).

(** The third loop: the lines of the history table. *)
Definition history_pass (env : Env) (rows : list Row) : M (list string) :=
  for_each (history_row env) (iterrows rows) [].

(** What a run leaves: the files of the first loop, in the order
    written, and the bundle file. *)
Record Output : Type := mkOutput {
  observation_files : list (string * dict);
  bundle_file : string * dict
}.

(** [create_observations(srcfile, outdir)], for the rows read from
    [srcfile] and the configuration read from [config.json]. *)
Definition create_observations (env : Env) (cfg : Config) (rows : list Row)
    (srcfile outdir : string) : M Output :=
  logger INFO ("Processing " ++ PyStr.of_nat (List.length rows)
                 ++ " observations from " ++ srcfile) ;;;
  written <- file_pass env cfg outdir rows ;;
  st <- bundle_pass env cfg rows ;;
  html_rows <- history_pass env rows ;;
  let bundle := make_bundle env st html_rows in
  let bundle_filename := "observations_bundle_" ++ timestamp env ++ ".json" in
  logger INFO ("Created FHIR bundle: " ++ bundle_filename ++ " with "
                 ++ PyStr.of_nat (List.length (bundle_entries st))
                 ++ " observations") ;;;
  ret (mkOutput written (path_join outdir bundle_filename, bundle)).

(** * [get_concept_display]: the query and the reading of the answer

    The function as the source has it, below the oracle [lookup] of the
    environment: the query it builds, and how it reads the parsed
    answer.  The request with the parsing of its body, and the
    evaluation of the path expression by [fhirpathpy], are taken as
    given. *)

Module Lookup.

(** A value that [response.json()] returns. *)
#[warnings="-register-all"]
Inductive pyval : Type :=
| PNone
| PBool (b : bool)
| PInt (z : Z)
| PFloat (f : spec_float)
| PStr (s : string)
| PList (l : list pyval)
| PDict (d : list (string * pyval)).

(** [type(v).__name__] *)
Definition type_name (v : pyval) : string :=
  match v with
  | PNone => "NoneType"
  | PBool _ => "bool"
  | PInt _ => "int"
  | PFloat _ => "float"
  | PStr _ => "str"
  | PList _ => "list"
  | PDict _ => "dict"
  end.

Fixpoint dict_find (k : string) (d : list (string * pyval)) : option pyval :=
  match d with
  | [] => None
  | (k', v) :: r => if String.eqb k k' then Some v else dict_find k r
  end.

(** [v.get(k, default)]: only a [dict] has the method; for the other
    values the call raises [AttributeError], written [OtherError]. *)
Definition py_get (v : pyval) (k : string) (default : pyval) : result pyval :=
  match v with
  | PDict d =>
      Ok match dict_find k d with
         | Some x => x
         | None => default
         end
  | _ => Raise (OtherError ("'" ++ type_name v ++ "' object has no attribute 'get'"))
  end.

(** [for x in v]: the elements of a list, the keys of a dict, the
    characters of a string; the other values raise [TypeError]. *)
Definition py_iter (v : pyval) : result (list pyval) :=
  match v with
  | PList l => Ok l
  | PDict d => Ok (map (fun kv => PStr (fst kv)) d)
  | PStr s => Ok (map (fun c => PStr (String c EmptyString)) (PyStr.chars s))
  | _ => Raise (TypeError ("'" ++ type_name v ++ "' object is not iterable"))
  end.

(** [v == s] for a string [s] *)
Definition eq_str (v : pyval) (s : string) : bool :=
  match v with
  | PStr t => String.eqb t s
  | _ => false
  end.

(** [bool(v)] *)
Definition truthy (v : pyval) : bool :=
  match v with
  | PNone => false
  | PBool b => b
  | PInt z => negb (Z.eqb z 0)
  | PFloat (S754_zero _) => false
  | PFloat _ => true
  | PStr s => PyStr.truthy s
  | PList l => Dict.truthy l
  | PDict d => Dict.truthy d
  end.

Definition rbind {A B : Type} (r : result A) (k : A -> result B) : result B :=
  match r with
  | Ok a => k a
  | Raise e => Raise e
  end.

Declare Scope res_scope.
Delimit Scope res_scope with res.
Notation "x <- m ;; k" := (rbind m (fun x => k))
  (at level 61, m at next level, right associativity) : res_scope.
Local Open Scope res_scope.

(** The innermost loop: the [valueString] of the first part named
    [display]; [None] stands for a loop that ends without [return]. *)
Fixpoint scan_subparts (subparts : list pyval) : result (option pyval) :=
  match subparts with
  | [] => Ok None
  | subpart :: rest =>
      n <- py_get subpart "name" PNone ;;
      if eq_str n "display" then
        v <- py_get subpart "valueString" PNone ;; Ok (Some v)
      else scan_subparts rest
  end.

(** The loop over the parts of a property: at a part named [preferred]
    whose [valueBoolean] is true, the innermost loop runs over all the
    parts of the parameter. *)
Fixpoint scan_parts (param : pyval) (parts : list pyval) : result (option pyval) :=
  match parts with
  | [] => Ok None
  | part :: rest =>
      n <- py_get part "name" PNone ;;
      preferred <- (if eq_str n "preferred"
                    then b <- py_get part "valueBoolean" PNone ;; Ok (truthy b)
                    else Ok false) ;;
      if preferred then
        all <- py_get param "part" (PList []) ;;
        subparts <- py_iter all ;;
        r <- scan_subparts subparts ;;
        match r with
        | Some v => Ok (Some v)
        | None => scan_parts param rest
        end
      else scan_parts param rest
  end.

(** The loop over the parameters of the answer. *)
Fixpoint scan_parameters (params : list pyval) : result (option pyval) :=
  match params with
  | [] => Ok None
  | param :: rest =>
      n <- py_get param "name" PNone ;;
      if eq_str n "display" then
        v <- py_get param "valueString" PNone ;; Ok (Some v)
      else
        n' <- py_get param "name" PNone ;;
        if eq_str n' "property" then
          all <- py_get param "part" (PList []) ;;
          parts <- py_iter all ;;
          r <- scan_parts param parts ;;
          match r with
          | Some v => Ok (Some v)
          | None => scan_parameters rest
          end
        else scan_parameters rest
  end.

(** [_ALWAYS_SAFE] of [urllib.parse]: letters, digits and [_.-~]. *)
Definition always_safe (c : ascii) : bool :=
  let n := PyStr.code c in
  ((65 <=? n)%nat && (n <=? 90)%nat) || ((97 <=? n)%nat && (n <=? 122)%nat)
  || ((48 <=? n)%nat && (n <=? 57)%nat)
  || (n =? 95)%nat || (n =? 46)%nat || (n =? 45)%nat || (n =? 126)%nat.

(** One digit of [{:02X}]. *)
Definition hex_digit (n : nat) : ascii :=
  if (n <? 10)%nat then ascii_of_nat (48 + n) else ascii_of_nat (55 + n).

Definition quote_byte (c : ascii) : list ascii :=
  if always_safe c then [c]
  else ["%"%char; hex_digit (PyStr.code c / 16); hex_digit (PyStr.code c mod 16)].

(** [parse.quote(s, safe='')] on the bytes of [s]. *)
Definition quote (s : string) : string :=
  PyStr.of_chars (flat_map quote_byte (PyStr.chars s)).

Definition baseurl : string := "https://r4.ontoserver.csiro.au/fhir".

(** The query of the lookup. *)
Definition query (code system : string) : string :=
  baseurl ++ "/CodeSystem/$lookup" ++ "?system=" ++ quote system ++ "&code=" ++ code.

Definition fallback_expr : string :=
  "Parameters.parameter.where(name='property').part.where(name='display').valueString".

Section Service.

(** [requests.get(query, headers=headers)] followed by
    [response.json()], and [fhirpathpy.evaluate]. *)
Variable http_get_json : string -> result pyval.
Variable evaluate : pyval -> string -> result pyval.

(** The statements of [get_concept_display] from the loop on. *)
Definition display_of_response (data : pyval) : result pyval :=
  all <- py_get data "parameter" (PList []) ;;
  params <- py_iter all ;;
  r <- scan_parameters params ;;
  match r with
  | Some v => Ok v
  | None =>
      display <- evaluate data fallback_expr ;;
      if truthy display then
        match display with
        | PList (x :: _) => Ok x
        | _ => Ok display
        end
      else Ok PNone
  end.

(** [get_concept_display(code, system)] *)
Definition get_concept_display (code system : string) : result pyval :=
  data <- http_get_json (query code system) ;;
  display_of_response data.

End Service.

End Lookup.

(** * Properties *)

(** ** Dictionaries *)

Lemma get_set (k k' : string) (v : json) (d : dict) :
  Dict.get k (Dict.set k' v d)
  = if String.eqb k k' then Some v else Dict.get k d.
Proof.
  induction d as [|[k0 v0] r IH]; simpl.
  - reflexivity.
  - destruct (String.eqb k' k0) eqn:E0; simpl.
    + apply String.eqb_eq in E0; subst k0.
      destruct (String.eqb k k'); reflexivity.
    + rewrite IH.
      destruct (String.eqb k k0) eqn:E1; [|reflexivity].
      apply String.eqb_eq in E1; subst k0.
      rewrite String.eqb_sym, E0; reflexivity.
Qed.

Lemma has_set (k k' : string) (v : json) (d : dict) :
  Dict.has k (Dict.set k' v d) = String.eqb k k' || Dict.has k d.
Proof.
  unfold Dict.has; rewrite get_set.
  destruct (String.eqb k k'); reflexivity.
Qed.

(** Setting a key the dictionary does not hold adds it at the end. *)
Lemma set_fresh (k : string) (v : json) (d : dict) :
  Dict.has k d = false -> Dict.set k v d = (d ++ [(k, v)])%list.
Proof.
  unfold Dict.has.
  induction d as [|[k0 v0] r IH]; simpl; [reflexivity|].
  destruct (String.eqb k k0); [discriminate|].
  intros H. now rewrite IH.
Qed.

(** ** Computations: the log only grows, and what a computation does
    is the same whatever was logged before *)

Definition outcome {A : Type} (m : M A) : result A := fst (m []).
Definition logged {A : Type} (m : M A) : list log_entry := snd (m []).

Definition uniform {A : Type} (m : M A) : Prop :=
  forall l, m l = (outcome m, (l ++ logged m)%list).

Lemma uniform_ret {A : Type} (a : A) : uniform (ret a).
Proof. intro l; cbv [ret outcome logged fst snd]; now rewrite app_nil_r. Qed.

Lemma uniform_lift {A : Type} (r : result A) : uniform (lift r).
Proof. intro l; cbv [lift outcome logged fst snd]; now rewrite app_nil_r. Qed.

Lemma uniform_logger (lv : level) (msg : string) : uniform (logger lv msg).
Proof. intro l; reflexivity. Qed.

Lemma uniform_bind {A B : Type} (m : M A) (k : A -> M B) :
  uniform m -> (forall a, uniform (k a)) -> uniform (bind m k).
Proof.
  intros Hm Hk l. unfold outcome, logged, bind.
  rewrite (Hm l), (Hm []). simpl.
  destruct (outcome m) as [a|e]; simpl.
  - rewrite (Hk a (l ++ logged m)%list), (Hk a (logged m)). simpl.
    now rewrite app_assoc.
  - reflexivity.
Qed.

Lemma uniform_try_ValueError {A : Type} (body handler : M A) :
  uniform body -> uniform handler -> uniform (try_except_ValueError body handler).
Proof.
  intros Hb Hh l. unfold outcome, logged, try_except_ValueError.
  rewrite (Hb l), (Hb []). simpl.
  destruct (outcome body) as [a|[]]; simpl; try reflexivity.
  rewrite (Hh (l ++ logged body)%list), (Hh (logged body)). simpl.
  now rewrite app_assoc.
Qed.

Lemma uniform_try_Exception {A : Type} (body : M A) (handler : exn -> M A) :
  uniform body -> (forall e, uniform (handler e)) ->
  uniform (try_except_Exception body handler).
Proof.
  intros Hb Hh l. unfold outcome, logged, try_except_Exception.
  rewrite (Hb l), (Hb []). simpl.
  destruct (outcome body) as [a|e]; simpl; try reflexivity.
  rewrite (Hh e (l ++ logged body)%list), (Hh e (logged body)). simpl.
  now rewrite app_assoc.
Qed.

Create HintDb uniform discriminated.
#[local] Hint Resolve uniform_ret uniform_lift uniform_logger : uniform.

Ltac uniform_step :=
  first
    [ solve [auto with uniform]
    | apply uniform_bind; [|intro]
    | apply uniform_try_ValueError
    | apply uniform_try_Exception; [|intro]
    | match goal with
      | |- uniform (match ?x with _ => _ end) => destruct x
      | |- uniform (if ?x then _ else _) => destruct x
      end ].

Ltac uniform_auto := repeat uniform_step.

Lemma uniform_set_effective_date index row obs :
  uniform (set_effective_date index row obs).
Proof. unfold set_effective_date. uniform_auto. Qed.

Lemma uniform_set_value index row uc us obs :
  uniform (set_value index row uc us obs).
Proof. unfold set_value. uniform_auto. Qed.

Lemma uniform_set_low index row uc us rr : uniform (set_low index row uc us rr).
Proof. unfold set_low. uniform_auto. Qed.

Lemma uniform_set_high index row uc us rr : uniform (set_high index row uc us rr).
Proof. unfold set_high. uniform_auto. Qed.

Lemma uniform_set_reference_range index row uc us obs :
  uniform (set_reference_range index row uc us obs).
Proof.
  unfold set_reference_range.
  destruct (present (LowRefRange row) || present (HighRefRange row)).
  - apply uniform_bind; [apply uniform_set_low|intro].
    apply uniform_bind; [apply uniform_set_high|intro].
    apply uniform_ret.
  - apply uniform_ret.
Qed.

Lemma uniform_build_obs_dict cfg index row obs_id display :
  uniform (build_obs_dict cfg index row obs_id display).
Proof.
  unfold build_obs_dict.
  apply uniform_bind; [apply uniform_set_effective_date|intro].
  apply uniform_bind; [apply uniform_set_value|intro].
  apply uniform_set_reference_range.
Qed.

(** ** The steps of a record, one by one *)

Ltac run := cbv [bind lift ret try_except_ValueError try_except_Exception logger].

Lemma truthy_false_empty (s : string) : PyStr.truthy s = false -> s = EmptyString.
Proof. destruct s; [reflexivity|discriminate]. Qed.

Lemma present_some (c : cell) :
  present c = true -> exists s, c = Some s /\ PyStr.truthy s = true.
Proof. destruct c as [s|]; simpl; [eauto|discriminate]. Qed.

(** *** The effective date *)

Lemma set_effective_date_absent index row obs l :
  present (dateobserved row) = false ->
  set_effective_date index row obs l = (Ok obs, l).
Proof.
  unfold set_effective_date, present.
  destruct (dateobserved row) as [s|]; [|reflexivity].
  intros ->; reflexivity.
Qed.

Lemma strptime_truthy s d : PyDate.strptime_mdY s = Some d -> PyStr.truthy s = true.
Proof. destruct s; [discriminate|reflexivity]. Qed.

Lemma set_effective_date_valid index row obs l s d :
  dateobserved row = Some s ->
  PyDate.strptime_mdY s = Some d ->
  set_effective_date index row obs l
  = (Ok (Dict.set "effectiveDateTime" (JStr (PyDate.isoformat d)) obs), l).
Proof.
  intros Hs Hd. unfold set_effective_date, py_strptime.
  rewrite Hs, (strptime_truthy _ _ Hd), Hd. reflexivity.
Qed.

Lemma set_effective_date_invalid index row obs l s :
  dateobserved row = Some s ->
  PyStr.truthy s = true ->
  PyDate.strptime_mdY s = None ->
  set_effective_date index row obs l
  = (Ok obs, (l ++ [(WARNING, ("Invalid date format for row " ++ PyStr.of_nat index
                                  ++ ": " ++ s)%string)])%list).
Proof.
  intros Hs Ht Hd. unfold set_effective_date, py_strptime.
  rewrite Hs, Ht, Hd. reflexivity.
Qed.

(** The date step never raises and touches no other field. *)
Lemma set_effective_date_frame index row obs l :
  exists obs' l',
    set_effective_date index row obs l = (Ok obs', l')
    /\ forall k, String.eqb k "effectiveDateTime" = false ->
                 Dict.get k obs' = Dict.get k obs.
Proof.
  destruct (present (dateobserved row)) eqn:P.
  - destruct (present_some _ P) as (s & Hs & Ht).
    destruct (PyDate.strptime_mdY s) as [d|] eqn:Hd.
    + rewrite (set_effective_date_valid _ _ _ _ _ _ Hs Hd).
      do 2 eexists; split; [reflexivity|].
      intros k Hk. now rewrite get_set, Hk.
    + rewrite (set_effective_date_invalid _ _ _ _ _ Hs Ht Hd).
      do 2 eexists; split; [reflexivity|]. reflexivity.
  - rewrite (set_effective_date_absent _ _ _ _ P).
    do 2 eexists; split; reflexivity.
Qed.

(** *** The units *)

Lemma merge_value_metadata (x : json) (uc us : string) :
  Dict.merge (Dict.set "value" x []) (value_metadata uc us)
  = ("value", x) :: value_metadata uc us.
Proof.
  unfold value_metadata.
  destruct (PyStr.truthy uc), (PyStr.truthy us); reflexivity.
Qed.

Lemma merge_value_metadata_cons (x : json) (uc us : string) :
  Dict.merge [("value", x)] (value_metadata uc us)
  = ("value", x) :: value_metadata uc us.
Proof. exact (merge_value_metadata x uc us). Qed.

Lemma low_metadata_eq uc us : low_metadata uc us = value_metadata uc us.
Proof. reflexivity. Qed.

Lemma high_metadata_eq uc us : high_metadata uc us = value_metadata uc us.
Proof. reflexivity. Qed.

(** *** The value *)

Lemma set_value_absent index row uc us obs l :
  present (value row) = false ->
  set_value index row uc us obs l = (Ok obs, l).
Proof.
  unfold set_value, present.
  destruct (value row) as [s|]; [|reflexivity].
  intros ->; reflexivity.
Qed.

Lemma float_truthy s f : PyFloat.float_of_string s = Some f -> PyStr.truthy s = true.
Proof. destruct s; [discriminate|reflexivity]. Qed.

Lemma set_value_float index row uc us obs l v f :
  value row = Some v ->
  PyFloat.float_of_string v = Some f ->
  PyFloat.gt_int f 9 = false ->
  set_value index row uc us obs l
  = (Ok (Dict.set "valueQuantity"
           (JDict (("value", JFloat f) :: value_metadata uc us)) obs), l).
Proof.
  intros Hv Hf Hg. unfold set_value, py_float.
  rewrite Hv, (float_truthy _ _ Hf), Hf. run. rewrite Hg.
  now rewrite merge_value_metadata.
Qed.

Lemma set_value_int index row uc us obs l v f z :
  value row = Some v ->
  PyFloat.float_of_string v = Some f ->
  PyFloat.gt_int f 9 = true ->
  PyFloat.py_round f = Ok z ->
  set_value index row uc us obs l
  = (Ok (Dict.set "valueQuantity"
           (JDict (("value", JInt z) :: value_metadata uc us)) obs), l).
Proof.
  intros Hv Hf Hg Hr. unfold set_value, py_float.
  rewrite Hv, (float_truthy _ _ Hf), Hf. run. rewrite Hg, Hr.
  now rewrite merge_value_metadata.
Qed.

Lemma set_value_infinite index row uc us obs l v :
  value row = Some v ->
  PyFloat.float_of_string v = Some (S754_infinity false) ->
  set_value index row uc us obs l
  = (Raise (OverflowError "cannot convert float infinity to integer"), l).
Proof.
  intros Hv Hf. unfold set_value, py_float.
  rewrite Hv, (float_truthy _ _ Hf), Hf. reflexivity.
Qed.

Lemma set_value_coded index row uc us obs l v cd :
  value row = Some v ->
  PyStr.truthy v = true ->
  PyFloat.float_of_string v = None ->
  abx_lookup (PyStr.strip v) abx_map = Some cd ->
  set_value index row uc us obs l
  = (Ok (Dict.set "valueCodeableConcept"
           (JDict [("coding",
              JList [JDict [("system", JStr interpretation_system);
                            ("code", JStr (fst cd));
                            ("display", JStr (snd cd))]])]) obs), l).
Proof.
  intros Hv Ht Hf Ha. unfold set_value, py_float.
  rewrite Hv, Ht, Hf. run. rewrite Ha. reflexivity.
Qed.

Lemma set_value_string index row uc us obs l v :
  value row = Some v ->
  PyStr.truthy v = true ->
  PyFloat.float_of_string v = None ->
  abx_lookup (PyStr.strip v) abx_map = None ->
  PyStr.truthy (PyStr.strip v) = true ->
  set_value index row uc us obs l
  = (Ok (Dict.set "valueString" (JStr (PyStr.strip v)) obs), l).
Proof.
  intros Hv Ht Hf Ha Hs. unfold set_value, py_float.
  rewrite Hv, Ht, Hf. run. rewrite Ha, Hs. reflexivity.
Qed.

Lemma set_value_blank index row uc us obs l v :
  value row = Some v ->
  PyStr.truthy v = true ->
  PyFloat.float_of_string v = None ->
  PyStr.truthy (PyStr.strip v) = false ->
  set_value index row uc us obs l
  = (Ok obs, (l ++ [(WARNING, ("Invalid value for row " ++ PyStr.of_nat index
                                  ++ ": " ++ v)%string)])%list).
Proof.
  intros Hv Ht Hf Hs. unfold set_value, py_float.
  rewrite Hv, Ht, Hf. run.
  rewrite (truthy_false_empty _ Hs). reflexivity.
Qed.

(** The value step touches only the three value fields. *)
Lemma set_value_frame index row uc us obs l obs' l' :
  set_value index row uc us obs l = (Ok obs', l') ->
  forall k, String.eqb k "valueQuantity" = false ->
            String.eqb k "valueCodeableConcept" = false ->
            String.eqb k "valueString" = false ->
            Dict.get k obs' = Dict.get k obs.
Proof.
  unfold set_value, py_float.
  destruct (value row) as [v|]; [|now intros [= <- _]].
  destruct (PyStr.truthy v); [|now intros [= <- _]].
  run.
  destruct (PyFloat.float_of_string v) as [f|].
  - destruct (PyFloat.gt_int f 9).
    + destruct (PyFloat.py_round f) as [z|[]]; try discriminate.
      * intros [= <- _] k Hq _ _. now rewrite get_set, Hq.
      * destruct (abx_lookup _ _).
        -- intros [= <- _] k _ Hc _. now rewrite get_set, Hc.
        -- destruct (PyStr.truthy _); intros [= <- _] k _ _ Hs;
             [now rewrite get_set, Hs | reflexivity].
    + intros [= <- _] k Hq _ _. now rewrite get_set, Hq.
  - destruct (abx_lookup _ _).
    + intros [= <- _] k _ Hc _. now rewrite get_set, Hc.
    + destruct (PyStr.truthy _); intros [= <- _] k _ _ Hs;
        [now rewrite get_set, Hs | reflexivity].
Qed.

(** *** Comparison with 9 and rounding *)

Lemma nine_normal : PyFloat.of_Z 9 = S754_finite false 5066549580791808 (-49).
Proof. reflexivity. Qed.

(** A float above 9 is a positive finite number or the positive infinity. *)
Lemma gt_9_cases (f : spec_float) :
  PyFloat.gt_int f 9 = true ->
  f = S754_infinity false \/ exists m e, f = S754_finite false m e.
Proof.
  unfold PyFloat.gt_int. rewrite nine_normal.
  destruct f as [s|[]| |[] m e]; cbv [SFltb SFcompare];
    try discriminate; eauto.
Qed.

(** [x <= y] excludes [y < x], for a positive finite [y]. *)
Lemma SFleb_not_SFltb (x : spec_float) (M : positive) (E : Z) :
  SFleb x (S754_finite false M E) = true ->
  SFltb (S754_finite false M E) x = false.
Proof.
  destruct x as [s|[]| |[] m e]; cbv [SFleb SFltb SFcompare];
    try discriminate; try reflexivity.
  rewrite (Z.compare_antisym e E).
  destruct (e ?= E)%Z; cbv [CompOpp]; try discriminate; try reflexivity.
  pose proof (Pos.compare_cont_antisym m M Eq) as H.
  change (CompOpp Eq) with Eq in H. rewrite <- H.
  destruct (Pos.compare_cont Eq m M); cbv [CompOpp];
    try discriminate; reflexivity.
Qed.

(** [x <= 9] excludes [x > 9]. *)
Lemma le_9_not_gt_9 (f : spec_float) :
  PyFloat.le_int f 9 = true -> PyFloat.gt_int f 9 = false.
Proof.
  unfold PyFloat.le_int, PyFloat.gt_int. rewrite nine_normal.
  apply SFleb_not_SFltb.
Qed.

(** A NaN is neither above 9 nor at most 9. *)
Lemma nan_unordered :
  PyFloat.gt_int S754_nan 9 = false /\ PyFloat.le_int S754_nan 9 = false.
Proof. split; reflexivity. Qed.

Lemma round_finite s m e :
  PyFloat.py_round (S754_finite s m e)
  = Ok (if s then (- PyFloat.round_half_even m e)%Z else PyFloat.round_half_even m e).
Proof. reflexivity. Qed.

(** *** The reference range *)

(** [float(c)] succeeds on the cell. *)
Definition parses_numeric (c : cell) : bool :=
  match c with
  | Some s =>
      match PyFloat.float_of_string s with
      | Some _ => true
      | None => false
      end
  | None => false
  end.

Lemma parses_numeric_present c : parses_numeric c = true -> present c = true.
Proof.
  destruct c as [s|]; simpl; [|discriminate].
  destruct (PyFloat.float_of_string s) eqn:E; [|discriminate].
  intros _. exact (float_truthy _ _ E).
Qed.

(** The bound a cell contributes to the range under key [k]. *)
Definition range_bound (k : string) (c : cell) (uc us : string) : dict :=
  match c with
  | Some s =>
      match PyFloat.float_of_string s with
      | Some f => [(k, JDict (("value", JFloat f) :: value_metadata uc us))]
      | None => []
      end
  | None => []
  end.

Definition range_text (c : cell) : dict :=
  if present c then [("text", json_of_cell c)] else [].

(** The warning of a bound that is given and does not parse. *)
Definition bound_warning (what : string) (index : nat) (c : cell)
  : list log_entry :=
  match c with
  | Some s =>
      if PyStr.truthy s then
        match PyFloat.float_of_string s with
        | Some _ => []
        | None => [(WARNING, "Invalid " ++ what ++ " reference range for row "
                               ++ PyStr.of_nat index ++ ": " ++ s)]
        end
      else []
  | None => []
  end.

Lemma merge_low_metadata (x : json) (uc us : string) :
  Dict.merge (Dict.set "value" x []) (low_metadata uc us)
  = ("value", x) :: value_metadata uc us.
Proof. apply merge_value_metadata. Qed.

Lemma merge_high_metadata (x : json) (uc us : string) :
  Dict.merge (Dict.set "value" x []) (high_metadata uc us)
  = ("value", x) :: value_metadata uc us.
Proof. apply merge_value_metadata. Qed.

Lemma set_low_spec index row uc us l :
  set_low index row uc us [] l
  = (Ok (range_bound "low" (LowRefRange row) uc us),
     (l ++ bound_warning "low" index (LowRefRange row))%list).
Proof.
  unfold set_low, range_bound, bound_warning, py_float.
  destruct (LowRefRange row) as [s|]; [|now rewrite app_nil_r].
  destruct (PyStr.truthy s) eqn:T.
  - run. destruct (PyFloat.float_of_string s) as [f|].
    + now rewrite merge_low_metadata, app_nil_r.
    + reflexivity.
  - rewrite (truthy_false_empty _ T). now rewrite app_nil_r.
Qed.

Lemma set_high_spec index row uc us rr l :
  Dict.has "high" rr = false ->
  set_high index row uc us rr l
  = (Ok (rr ++ range_bound "high" (HighRefRange row) uc us)%list,
     (l ++ bound_warning "high" index (HighRefRange row))%list).
Proof.
  intros Hrr.
  pose proof (fun v => set_fresh "high" v rr Hrr) as Happ.
  unfold set_high, range_bound, bound_warning, py_float.
  destruct (HighRefRange row) as [s|]; [|now rewrite !app_nil_r].
  destruct (PyStr.truthy s) eqn:T.
  - run. destruct (PyFloat.float_of_string s) as [f|].
    + now rewrite merge_high_metadata, Happ, app_nil_r.
    + now rewrite app_nil_r.
  - rewrite (truthy_false_empty _ T). now rewrite !app_nil_r.
Qed.

Lemma range_bound_low_no_high c uc us :
  Dict.has "high" (range_bound "low" c uc us) = false.
Proof.
  unfold range_bound. destruct c as [s|]; [|reflexivity].
  destruct (PyFloat.float_of_string s); reflexivity.
Qed.

(** The dictionary of the range: the bounds that parse, then the text. *)
Definition range_dict (row : Row) (uc us : string) : dict :=
  (range_bound "low" (LowRefRange row) uc us
     ++ range_bound "high" (HighRefRange row) uc us
     ++ range_text (RR_Display row))%list.

Lemma set_reference_range_given index row uc us obs l :
  present (LowRefRange row) || present (HighRefRange row) = true ->
  set_reference_range index row uc us obs l
  = (Ok (Dict.set "referenceRange" (JList [JDict (range_dict row uc us)]) obs),
     (l ++ bound_warning "low" index (LowRefRange row)
        ++ bound_warning "high" index (HighRefRange row))%list).
Proof.
  intros P. unfold set_reference_range. rewrite P.
  unfold bind at 1. rewrite set_low_spec.
  unfold bind at 1. rewrite set_high_spec by apply range_bound_low_no_high.
  unfold ret. rewrite <- app_assoc. do 3 f_equal.
  unfold range_dict, range_text, present.
  set (lo := range_bound "low" _ _ _). set (hi := range_bound "high" _ _ _).
  assert (Htext : forall v, Dict.set "text" v (lo ++ hi)%list
                            = (lo ++ hi ++ [("text", v)])%list).
  { intros v. subst lo hi. unfold range_bound.
    destruct (LowRefRange row) as [s1|]; [destruct (PyFloat.float_of_string s1)|];
    (destruct (HighRefRange row) as [s2|]; [destruct (PyFloat.float_of_string s2)|]);
    reflexivity. }
  destruct (RR_Display row) as [t|]; [|now rewrite !app_nil_r].
  destruct (PyStr.truthy t); [|now rewrite !app_nil_r].
  simpl. now rewrite Htext.
Qed.

Lemma set_reference_range_absent index row uc us obs l :
  present (LowRefRange row) || present (HighRefRange row) = false ->
  set_reference_range index row uc us obs l = (Ok obs, l).
Proof. intros P. unfold set_reference_range. now rewrite P. Qed.

(** The range step never raises and touches no other field. *)
Lemma set_reference_range_frame index row uc us obs l :
  exists obs' l',
    set_reference_range index row uc us obs l = (Ok obs', l')
    /\ forall k, String.eqb k "referenceRange" = false ->
                 Dict.get k obs' = Dict.get k obs.
Proof.
  destruct (present (LowRefRange row) || present (HighRefRange row)) eqn:P.
  - rewrite (set_reference_range_given _ _ _ _ _ _ P).
    do 2 eexists; split; [reflexivity|].
    intros k Hk. now rewrite get_set, Hk.
  - rewrite (set_reference_range_absent _ _ _ _ _ _ P).
    do 2 eexists; split; reflexivity.
Qed.

(** *** The record as a whole *)

(** The record before the date, the value and the range are set. *)
Definition base_obs_dict (cfg : Config) (row : Row) (obs_id : string)
    (display : option string) : dict :=
  add_performer cfg (initial_obs_dict cfg row obs_id display).

Lemma build_obs_dict_inv cfg index row obs_id display l rec l' :
  build_obs_dict cfg index row obs_id display l = (Ok rec, l') ->
  exists obs1 l1 obs2 l2,
    set_effective_date index row (base_obs_dict cfg row obs_id display) l
    = (Ok obs1, l1)
    /\ set_value index row (ucum_code row) (unit_str row) obs1 l1 = (Ok obs2, l2)
    /\ set_reference_range index row (ucum_code row) (unit_str row) obs2 l2
       = (Ok rec, l').
Proof.
  unfold build_obs_dict, bind, base_obs_dict.
  destruct (set_effective_date _ _ _ _) as [[obs1|e] l1] eqn:E1; [|discriminate].
  destruct (set_value _ _ _ _ _ _) as [[obs2|e] l2] eqn:E2; [|discriminate].
  intros H. exists obs1, l1, obs2, l2. auto.
Qed.

(** The record exists as soon as the value step returns. *)
Lemma build_obs_dict_ok cfg index row obs_id display l :
  exists obs1 l1,
    set_effective_date index row (base_obs_dict cfg row obs_id display) l
    = (Ok obs1, l1)
    /\ forall obs2 l2,
        set_value index row (ucum_code row) (unit_str row) obs1 l1 = (Ok obs2, l2) ->
        exists rec l',
          build_obs_dict cfg index row obs_id display l = (Ok rec, l')
          /\ set_reference_range index row (ucum_code row) (unit_str row) obs2 l2
             = (Ok rec, l').
Proof.
  destruct (set_effective_date_frame index row
              (base_obs_dict cfg row obs_id display) l) as (obs1 & l1 & Hd & _).
  exists obs1, l1. split; [exact Hd|].
  intros obs2 l2 Hv.
  destruct (set_reference_range_frame index row (ucum_code row) (unit_str row)
              obs2 l2) as (rec & l' & Hr & _).
  exists rec, l'. split; [|exact Hr].
  unfold build_obs_dict, bind. fold (base_obs_dict cfg row obs_id display).
  now rewrite Hd, Hv.
Qed.

(** The record fails exactly when the value step does. *)
Lemma build_obs_dict_raise cfg index row obs_id display l :
  exists obs1 l1,
    set_effective_date index row (base_obs_dict cfg row obs_id display) l
    = (Ok obs1, l1)
    /\ forall e l2,
        set_value index row (ucum_code row) (unit_str row) obs1 l1 = (Raise e, l2) ->
        build_obs_dict cfg index row obs_id display l = (Raise e, l2).
Proof.
  destruct (set_effective_date_frame index row
              (base_obs_dict cfg row obs_id display) l) as (obs1 & l1 & Hd & _).
  exists obs1, l1. split; [exact Hd|].
  intros e l2 Hv.
  unfold build_obs_dict, bind. fold (base_obs_dict cfg row obs_id display).
  now rewrite Hd, Hv.
Qed.

Lemma add_performer_frame cfg obs k :
  String.eqb k "performer" = false ->
  Dict.get k (add_performer cfg obs) = Dict.get k obs.
Proof.
  intros Hk. unfold add_performer.
  destruct (performer_val cfg) as [p|]; [|reflexivity].
  destruct (String.eqb p "unknown"); [now rewrite get_set, Hk|].
  destruct (PyStr.truthy p); [now rewrite get_set, Hk|reflexivity].
Qed.

(** The fields the three steps leave alone are those of the base record. *)
Lemma build_obs_dict_frame cfg index row obs_id display l rec l' :
  build_obs_dict cfg index row obs_id display l = (Ok rec, l') ->
  forall k, String.eqb k "effectiveDateTime" = false ->
            String.eqb k "valueQuantity" = false ->
            String.eqb k "valueCodeableConcept" = false ->
            String.eqb k "valueString" = false ->
            String.eqb k "referenceRange" = false ->
            Dict.get k rec = Dict.get k (base_obs_dict cfg row obs_id display).
Proof.
  intros H k Hd Hq Hc Hs Hr.
  destruct (build_obs_dict_inv _ _ _ _ _ _ _ _ H)
    as (obs1 & l1 & obs2 & l2 & H1 & H2 & H3).
  destruct (set_reference_range_frame index row (ucum_code row) (unit_str row)
              obs2 l2) as (rec' & l'' & E3 & F3).
  rewrite H3 in E3. injection E3 as <- <-.
  rewrite (F3 k Hr).
  rewrite (set_value_frame _ _ _ _ _ _ _ _ H2 k Hq Hc Hs).
  destruct (set_effective_date_frame index row
              (base_obs_dict cfg row obs_id display) l) as (o & l0 & E1 & F1).
  rewrite H1 in E1. injection E1 as <- <-.
  exact (F1 k Hd).
Qed.

(** The value step starts from a record without value fields and the
    range step from one without a range. *)
Lemma base_no_field cfg row obs_id display k :
  String.eqb k "performer" = false ->
  Dict.get k (initial_obs_dict cfg row obs_id display) = None ->
  Dict.get k (base_obs_dict cfg row obs_id display) = None.
Proof.
  intros Hk H. unfold base_obs_dict. now rewrite add_performer_frame.
Qed.

Lemma after_date_get cfg index row obs_id display l obs1 l1 k :
  set_effective_date index row (base_obs_dict cfg row obs_id display) l
  = (Ok obs1, l1) ->
  String.eqb k "effectiveDateTime" = false ->
  Dict.get k obs1 = Dict.get k (base_obs_dict cfg row obs_id display).
Proof.
  intros H Hk.
  destruct (set_effective_date_frame index row
              (base_obs_dict cfg row obs_id display) l) as (o & l0 & E1 & F1).
  rewrite H in E1. injection E1 as <- <-. exact (F1 k Hk).
Qed.

(** The range of the record. *)
Lemma build_reference_range cfg index row obs_id display l rec l' :
  build_obs_dict cfg index row obs_id display l = (Ok rec, l') ->
  Dict.get "referenceRange" rec
  = if present (LowRefRange row) || present (HighRefRange row)
    then Some (JList [JDict (range_dict row (ucum_code row) (unit_str row))])
    else None.
Proof.
  intros H.
  destruct (build_obs_dict_inv _ _ _ _ _ _ _ _ H)
    as (obs1 & l1 & obs2 & l2 & H1 & H2 & H3).
  destruct (present (LowRefRange row) || present (HighRefRange row)) eqn:P.
  - rewrite (set_reference_range_given _ _ _ _ _ _ P) in H3.
    injection H3 as <- _. now rewrite get_set.
  - rewrite (set_reference_range_absent _ _ _ _ _ _ P) in H3.
    injection H3 as <- _.
    rewrite (set_value_frame _ _ _ _ _ _ _ _ H2) by reflexivity.
    rewrite (after_date_get _ _ _ _ _ _ _ _ _ H1) by reflexivity.
    apply base_no_field; reflexivity.
Qed.

Lemma has_range_bound k c uc us :
  Dict.has k (range_bound k c uc us) = parses_numeric c.
Proof.
  unfold range_bound, parses_numeric, Dict.has.
  destruct c as [s|]; [|reflexivity].
  destruct (PyFloat.float_of_string s); simpl; [|reflexivity].
  now rewrite String.eqb_refl.
Qed.

Lemma get_app (k : string) (a b : dict) :
  Dict.get k (a ++ b)%list
  = match Dict.get k a with
    | Some v => Some v
    | None => Dict.get k b
    end.
Proof.
  induction a as [|[k0 v0] r IH]; simpl; [reflexivity|].
  destruct (String.eqb k k0); [reflexivity|exact IH].
Qed.

Lemma has_app (k : string) (a b : dict) :
  Dict.has k (a ++ b)%list = Dict.has k a || Dict.has k b.
Proof.
  unfold Dict.has. rewrite get_app. destruct (Dict.get k a); reflexivity.
Qed.

Lemma has_range_bound_other k k' c uc us :
  String.eqb k k' = false -> Dict.has k (range_bound k' c uc us) = false.
Proof.
  intros Hk. unfold range_bound, Dict.has.
  destruct c as [s|]; [|reflexivity].
  destruct (PyFloat.float_of_string s); simpl; [|reflexivity].
  now rewrite Hk.
Qed.

Lemma has_range_text k c :
  Dict.has k (range_text c) = String.eqb k "text" && present c.
Proof.
  unfold range_text, Dict.has.
  destruct (present c); simpl.
  - destruct (String.eqb k "text"); reflexivity.
  - now rewrite andb_false_r.
Qed.

Lemma range_dict_keys row uc us :
  Dict.has "low" (range_dict row uc us) = parses_numeric (LowRefRange row)
  /\ Dict.has "high" (range_dict row uc us) = parses_numeric (HighRefRange row)
  /\ Dict.has "text" (range_dict row uc us) = present (RR_Display row).
Proof.
  unfold range_dict. rewrite !has_app, !has_range_bound, !has_range_text.
  rewrite !has_range_bound_other by reflexivity.
  repeat split; rewrite ?orb_false_r; reflexivity.
Qed.

(** ** Rows and settings used as examples *)

Definition example_cfg : Config :=
  mkConfig (Some "Patient/example") (Some "Practitioner/example").

Definition cfg_unknown_performer : Config :=
  mkConfig (Some "Patient/example") (Some "unknown").

Definition cfg_no_performer : Config :=
  mkConfig (Some "Patient/example") None.

(** The row of the specification's first scenario. *)
Definition row_glucose : Row :=
  mkRow (Some "2345-7") (Some "http://loinc.org") (Some "Glucose")
        (Some "7.5") (Some "mg/dL") (Some (Some "mg/dL"))
        (Some "3.9") (Some "10") (Some "3.9 - 10 mg/dL") (Some "03/15/2024").

(** A row whose low bound is given and is no number. *)
Definition row_unparsed_bound : Row :=
  mkRow (Some "2345-7") (Some "http://loinc.org") (Some "Glucose")
        (Some "7.5") (Some "mg/dL") (Some (Some "mg/dL"))
        (Some "abc") None None (Some "03/15/2024").

(** ** The reference range (C1) *)




(** ** The performer (C7) *)

Lemma build_performer cfg index row obs_id display l rec l' :
  build_obs_dict cfg index row obs_id display l = (Ok rec, l') ->
  Dict.get "performer" rec
  = Dict.get "performer" (base_obs_dict cfg row obs_id display).
Proof.
  intros H. apply (build_obs_dict_frame _ _ _ _ _ _ _ _ H); reflexivity.
Qed.

(** C7.  Without a performer in the configuration the record has no
    [performer] field; with the word [unknown] the field is a list of
    one entry that holds the data-absent-reason extension with the code
    [unknown] and no reference; with any other string that is not empty
    the field is a list of one entry that holds the string as its
    reference. *)
Theorem performer_field cfg index row obs_id display l rec l' :
  build_obs_dict cfg index row obs_id display l = (Ok rec, l') ->
  (performer_val cfg = None -> Dict.has "performer" rec = false)
  /\ (performer_val cfg = Some "unknown" ->
      Dict.get "performer" rec
      = Some (JList [JDict [("extension",
                 JList [JDict [("url", JStr "http://hl7.org/fhir/StructureDefinition/data-absent-reason");
                               ("valueCode", JStr "unknown")]])]]))
  /\ (forall p, performer_val cfg = Some p -> p <> "unknown" -> p <> EmptyString ->
      Dict.get "performer" rec = Some (JList [JDict [("reference", JStr p)]])).
Proof.
  intros H. pose proof (build_performer _ _ _ _ _ _ _ _ H) as G.
  unfold Dict.has. rewrite G. unfold base_obs_dict, add_performer.
  repeat split.
  - intros ->. reflexivity.
  - intros ->. reflexivity.
  - intros p -> Hu He.
    destruct (String.eqb p "unknown") eqn:E.
    + apply String.eqb_eq in E. contradiction.
    + destruct p; [contradiction|]. simpl PyStr.truthy. cbv iota.
      now rewrite get_set.
Qed.

(** C7 on the first scenario's row, for the three kinds of setting. *)
Lemma performer_field_witness :
  (exists rec l',
     build_obs_dict cfg_no_performer 0 row_glucose "obs-0" (Some "Glucose") []
     = (Ok rec, l')
     /\ Dict.has "performer" rec = false)
  /\ (exists rec l',
        build_obs_dict cfg_unknown_performer 0 row_glucose "obs-0" (Some "Glucose") []
        = (Ok rec, l')
        /\ Dict.get "performer" rec
           = Some (JList [JDict [("extension",
                 JList [JDict [("url", JStr "http://hl7.org/fhir/StructureDefinition/data-absent-reason");
                               ("valueCode", JStr "unknown")]])]]))
  /\ (exists rec l',
        build_obs_dict example_cfg 0 row_glucose "obs-0" (Some "Glucose") []
        = (Ok rec, l')
        /\ Dict.get "performer" rec
           = Some (JList [JDict [("reference", JStr "Practitioner/example")]])).
Proof.
  split; [|split].
  - eexists. eexists. split; [vm_compute; reflexivity|].
    refine (proj1 (performer_field cfg_no_performer 0 row_glucose "obs-0"
                     (Some "Glucose") [] _ _ eq_refl) eq_refl).
  - eexists. eexists. split; [vm_compute; reflexivity|].
    refine (proj1 (proj2 (performer_field cfg_unknown_performer 0 row_glucose "obs-0"
                            (Some "Glucose") [] _ _ eq_refl)) eq_refl).
  - eexists. eexists. split; [vm_compute; reflexivity|].
    refine (proj2 (proj2 (performer_field example_cfg 0 row_glucose "obs-0"
                            (Some "Glucose") [] _ _ eq_refl))
              "Practitioner/example" eq_refl _ _); discriminate.
Defined.

(** ** The value (C2, C3) *)

Lemma set_reference_range_get index row uc us obs l rec l' k :
  set_reference_range index row uc us obs l = (Ok rec, l') ->
  String.eqb k "referenceRange" = false ->
  Dict.get k rec = Dict.get k obs.
Proof.
  intros H Hk.
  destruct (set_reference_range_frame index row uc us obs l) as (r & l0 & E & F).
  rewrite H in E. injection E as <- <-. exact (F k Hk).
Qed.

(** A value step that returns gives a record, whose value fields are
    those the step left. *)
Lemma build_after_value cfg index row obs_id display l :
  exists obs1 l1,
    set_effective_date index row (base_obs_dict cfg row obs_id display) l
    = (Ok obs1, l1)
    /\ (forall k, String.eqb k "effectiveDateTime" = false ->
                  Dict.get k obs1 = Dict.get k (base_obs_dict cfg row obs_id display))
    /\ forall obs2 l2,
        set_value index row (ucum_code row) (unit_str row) obs1 l1 = (Ok obs2, l2) ->
        exists rec l',
          build_obs_dict cfg index row obs_id display l = (Ok rec, l')
          /\ forall k, String.eqb k "referenceRange" = false ->
                       Dict.get k rec = Dict.get k obs2.
Proof.
  destruct (build_obs_dict_ok cfg index row obs_id display l)
    as (obs1 & l1 & Hd & Hok).
  exists obs1, l1. split; [exact Hd|]. split.
  - intros k Hk. exact (after_date_get _ _ _ _ _ _ _ _ _ Hd Hk).
  - intros obs2 l2 Hv. destruct (Hok obs2 l2 Hv) as (rec & l' & Hb & Hr).
    exists rec, l'. split; [exact Hb|].
    intros k Hk. exact (set_reference_range_get _ _ _ _ _ _ _ _ _ Hr Hk).
Qed.

Lemma base_no_value_field cfg row obs_id display :
  Dict.get "valueQuantity" (base_obs_dict cfg row obs_id display) = None
  /\ Dict.get "valueCodeableConcept" (base_obs_dict cfg row obs_id display) = None
  /\ Dict.get "valueString" (base_obs_dict cfg row obs_id display) = None
  /\ Dict.get "effectiveDateTime" (base_obs_dict cfg row obs_id display) = None.
Proof. repeat split; apply base_no_field; reflexivity. Qed.

Lemma quantity_record cfg index row obs_id display l x :
  (forall obs l0,
      set_value index row (ucum_code row) (unit_str row) obs l0
      = (Ok (Dict.set "valueQuantity"
               (JDict (("value", x) :: value_metadata (ucum_code row) (unit_str row)))
               obs), l0)) ->
  exists rec l',
    build_obs_dict cfg index row obs_id display l = (Ok rec, l')
    /\ Dict.get "valueQuantity" rec
       = Some (JDict (("value", x) :: value_metadata (ucum_code row) (unit_str row)))
    /\ Dict.has "valueCodeableConcept" rec = false
    /\ Dict.has "valueString" rec = false.
Proof.
  intros Hv.
  destruct (build_after_value cfg index row obs_id display l)
    as (obs1 & l1 & _ & F1 & Hok).
  destruct (Hok _ _ (Hv obs1 l1)) as (rec & l' & Hb & F).
  destruct (base_no_value_field cfg row obs_id display) as (_ & Bc & Bs & _).
  exists rec, l'. split; [exact Hb|].
  unfold Dict.has. rewrite !F by reflexivity. rewrite !get_set. simpl.
  rewrite !F1 by reflexivity. now rewrite Bc, Bs.
Qed.


(** A row whose value parses as 15.2. *)
Definition row_fifteen : Row :=
  mkRow (Some "2345-7") (Some "http://loinc.org") (Some "Glucose")
        (Some "15.2") (Some "mg/dL") (Some (Some "mg/dL"))
        None None None (Some "03/15/2024").

(** A row whose value is a numeral past the range of a double. *)
Definition row_overflow : Row :=
  mkRow (Some "2345-7") (Some "http://loinc.org") (Some "Glucose")
        (Some "1e999") (Some "mg/dL") (Some (Some "mg/dL"))
        None None None (Some "03/15/2024").



Lemma strip_truthy (v : string) :
  PyStr.truthy (PyStr.strip v) = true -> PyStr.truthy v = true.
Proof. destruct v; [discriminate|reflexivity]. Qed.

Lemma coded_record cfg index row obs_id display l v cd :
  value row = Some v ->
  PyFloat.float_of_string v = None ->
  abx_lookup (PyStr.strip v) abx_map = Some cd ->
  PyStr.truthy (PyStr.strip v) = true ->
  exists rec l',
    build_obs_dict cfg index row obs_id display l = (Ok rec, l')
    /\ Dict.get "valueCodeableConcept" rec
       = Some (JDict [("coding",
                 JList [JDict [("system", JStr interpretation_system);
                               ("code", JStr (fst cd));
                               ("display", JStr (snd cd))]])])
    /\ Dict.has "valueQuantity" rec = false
    /\ Dict.has "valueString" rec = false.
Proof.
  intros Hv Hf Ha Ht.
  destruct (build_after_value cfg index row obs_id display l)
    as (obs1 & l1 & _ & F1 & Hok).
  pose proof (set_value_coded index row (ucum_code row) (unit_str row) obs1 l1
                v cd Hv (strip_truthy _ Ht) Hf Ha) as Hs.
  destruct (Hok _ _ Hs) as (rec & l' & Hb & F).
  destruct (base_no_value_field cfg row obs_id display) as (Bq & _ & Bs & _).
  exists rec, l'. split; [exact Hb|].
  unfold Dict.has. rewrite !F by reflexivity. rewrite !get_set. simpl.
  rewrite !F1 by reflexivity. now rewrite Bq, Bs.
Qed.

Lemma string_record cfg index row obs_id display l v :
  value row = Some v ->
  PyFloat.float_of_string v = None ->
  abx_lookup (PyStr.strip v) abx_map = None ->
  PyStr.truthy (PyStr.strip v) = true ->
  exists rec l',
    build_obs_dict cfg index row obs_id display l = (Ok rec, l')
    /\ Dict.get "valueString" rec = Some (JStr (PyStr.strip v))
    /\ Dict.has "valueQuantity" rec = false
    /\ Dict.has "valueCodeableConcept" rec = false.
Proof.
  intros Hv Hf Ha Ht.
  destruct (build_after_value cfg index row obs_id display l)
    as (obs1 & l1 & _ & F1 & Hok).
  pose proof (set_value_string index row (ucum_code row) (unit_str row) obs1 l1
                v Hv (strip_truthy _ Ht) Hf Ha Ht) as Hs.
  destruct (Hok _ _ Hs) as (rec & l' & Hb & F).
  destruct (base_no_value_field cfg row obs_id display) as (Bq & Bc & _ & _).
  exists rec, l'. split; [exact Hb|].
  unfold Dict.has. rewrite !F by reflexivity. rewrite !get_set. simpl.
  rewrite !F1 by reflexivity. now rewrite Bq, Bc.
Qed.

Lemma abx_lookup_other (val : string) :
  val <> "S" -> val <> "I" -> val <> "R" -> abx_lookup val abx_map = None.
Proof.
  intros HS HI HR. unfold abx_map, abx_lookup.
  apply String.eqb_neq in HS, HI, HR. now rewrite HS, HI, HR.
Qed.

Lemma truthy_nonempty (s : string) : s <> EmptyString -> PyStr.truthy s = true.
Proof. destruct s; [contradiction|reflexivity]. Qed.


(** A row whose value is the code [S] between blanks. *)
Definition row_susceptible : Row :=
  mkRow (Some "18900-1") (Some "http://loinc.org") (Some "Amoxicillin")
        (Some " S ") None (Some None) None None None (Some "03/15/2024").

(** A row whose value is free text. *)
Definition row_text_value : Row :=
  mkRow (Some "630-4") (Some "http://loinc.org") (Some "Culture")
        (Some "No growth") None (Some None) None None None (Some "03/15/2024").


(** ** One unit rule for the value and both bounds (C8) *)

(** A cell as the unit rule reads it: its stripped text, when the cell
    holds a value that is not blank. *)
Definition given (c : cell) : option string :=
  match c with
  | Some s => if PyStr.truthy (PyStr.strip s) then Some (PyStr.strip s) else None
  | None => None
  end.

Definition given_ucum (row : Row) : option string :=
  match ucum row with
  | Some c => given c
  | None => None
  end.

(** The unit rule in the words of the specification: the coded unit is
    [ucum] when present, else [unit_display]; it comes with the system
    of the units of measure; [unit_display], when present, is the
    readable unit whichever was coded. *)
Definition unit_resolution (ucum unit_display : option string) : dict :=
  let coded :=
    match ucum with
    | Some u => Some u
    | None => unit_display
    end in
  (match coded with
   | Some c => [("system", JStr "http://unitsofmeasure.org"); ("code", JStr c)]
   | None => []
   end
   ++ match unit_display with
      | Some u => [("unit", JStr u)]
      | None => []
      end)%list.

Lemma unit_str_given row :
  match given (units row) with
  | Some u => unit_str row = u /\ PyStr.truthy u = true
  | None => PyStr.truthy (unit_str row) = false
  end.
Proof.
  unfold given, unit_str. destruct (units row) as [u|]; [|reflexivity].
  destruct (PyStr.truthy (PyStr.strip u)) eqn:T; auto.
Qed.

Lemma value_metadata_resolution row :
  value_metadata (ucum_code row) (unit_str row)
  = unit_resolution (given_ucum row) (given (units row)).
Proof.
  pose proof (unit_str_given row) as Hu.
  unfold value_metadata, unit_resolution, ucum_code, given_ucum.
  destruct (ucum row) as [[u|]|]; simpl given.
  1: destruct (PyStr.truthy (PyStr.strip u)) eqn:Tu; [rewrite Tu|].
  all: destruct (given (units row)) as [us|];
    [destruct Hu as [-> Tus]; rewrite ?Tus | rewrite ?Hu]; reflexivity.
Qed.

(** The quantity the value step writes, when it writes one. *)
Lemma set_value_quantity_shape index row uc us obs l obs' l' :
  set_value index row uc us obs l = (Ok obs', l') ->
  Dict.get "valueQuantity" obs = None ->
  forall q, Dict.get "valueQuantity" obs' = Some q ->
            exists x, q = JDict (("value", x) :: value_metadata uc us).
Proof.
  unfold set_value, py_float.
  destruct (value row) as [v|]; [|intros [= <- _] N q Hq; congruence].
  destruct (PyStr.truthy v); [|intros [= <- _] N q Hq; congruence].
  run.
  destruct (PyFloat.float_of_string v) as [f|].
  - destruct (PyFloat.gt_int f 9).
    + destruct (PyFloat.py_round f) as [z|[]]; try discriminate.
      * intros [= <- _] _ q. rewrite merge_value_metadata_cons, get_set. simpl.
        intros [= <-]. eauto.
      * destruct (abx_lookup _ _); [|destruct (PyStr.truthy _)];
          intros [= <- _] N q Hq; rewrite ?get_set in Hq; simpl in Hq;
          congruence.
    + intros [= <- _] _ q. rewrite merge_value_metadata_cons, get_set. simpl.
      intros [= <-]. eauto.
  - destruct (abx_lookup _ _); [|destruct (PyStr.truthy _)];
      intros [= <- _] N q Hq; rewrite ?get_set in Hq; simpl in Hq;
      congruence.
Qed.

Lemma build_value_quantity_shape cfg index row obs_id display l rec l' :
  build_obs_dict cfg index row obs_id display l = (Ok rec, l') ->
  forall q, Dict.get "valueQuantity" rec = Some q ->
            exists x, q = JDict (("value", x)
                                   :: value_metadata (ucum_code row) (unit_str row)).
Proof.
  intros H q Hq.
  destruct (build_obs_dict_inv _ _ _ _ _ _ _ _ H)
    as (obs1 & l1 & obs2 & l2 & H1 & H2 & H3).
  rewrite (set_reference_range_get _ _ _ _ _ _ _ _ _ H3) in Hq by reflexivity.
  apply (set_value_quantity_shape _ _ _ _ _ _ _ _ H2); [|exact Hq].
  rewrite (after_date_get _ _ _ _ _ _ _ _ _ H1) by reflexivity.
  apply base_no_value_field.
Qed.

Lemma get_range_bound k k' c uc us b :
  Dict.get k (range_bound k' c uc us) = Some b ->
  exists x, b = JDict (("value", JFloat x) :: value_metadata uc us).
Proof.
  unfold range_bound. destruct c as [s|]; [|discriminate].
  destruct (PyFloat.float_of_string s) as [f|]; [|discriminate].
  simpl. destruct (String.eqb k k'); [|discriminate].
  intros [= <-]. eauto.
Qed.

Lemma get_range_bound_other k k' c uc us :
  String.eqb k k' = false -> Dict.get k (range_bound k' c uc us) = None.
Proof.
  intros Hk. pose proof (has_range_bound_other k k' c uc us Hk) as H.
  unfold Dict.has in H. destruct (Dict.get k _); [discriminate|reflexivity].
Qed.

Lemma range_dict_bounds row uc us :
  (forall b, Dict.get "low" (range_dict row uc us) = Some b ->
             exists x, b = JDict (("value", JFloat x) :: value_metadata uc us))
  /\ (forall b, Dict.get "high" (range_dict row uc us) = Some b ->
                exists x, b = JDict (("value", JFloat x) :: value_metadata uc us)).
Proof.
  unfold range_dict. split; intros b; rewrite !get_app.
  - destruct (Dict.get "low" (range_bound "low" _ _ _)) eqn:E.
    + intros [= <-]. exact (get_range_bound _ _ _ _ _ _ E).
    + rewrite get_range_bound_other by reflexivity.
      unfold range_text. destruct (present _); discriminate.
  - rewrite get_range_bound_other by reflexivity.
    destruct (Dict.get "high" (range_bound "high" _ _ _)) eqn:E.
    + intros [= <-]. exact (get_range_bound _ _ _ _ _ _ E).
    + unfold range_text. destruct (present _); discriminate.
Qed.

(** C8.  The unit fields of the value, of the low bound and of the high
    bound are built by one and the same function of the row, the unit
    rule of the specification: the system of the units of measure with
    [ucum] as the code, or with [units] as the code when there is no
    [ucum], and [units] as the readable unit whenever it is there.  In a
    record, the quantity of the value and each bound of the range carry
    exactly these fields after their number. *)
Theorem one_unit_rule cfg index row obs_id display l rec l' :
  build_obs_dict cfg index row obs_id display l = (Ok rec, l') ->
  let U := unit_resolution (given_ucum row) (given (units row)) in
  (value_metadata (ucum_code row) (unit_str row) = U
   /\ low_metadata (ucum_code row) (unit_str row) = U
   /\ high_metadata (ucum_code row) (unit_str row) = U)
  /\ (forall q, Dict.get "valueQuantity" rec = Some q ->
                exists x, q = JDict (("value", x) :: U))
  /\ (forall rr, Dict.get "referenceRange" rec = Some rr ->
        exists d,
          rr = JList [JDict d]
          /\ (forall b, Dict.get "low" d = Some b ->
                        exists x, b = JDict (("value", JFloat x) :: U))
          /\ (forall b, Dict.get "high" d = Some b ->
                        exists x, b = JDict (("value", JFloat x) :: U))).
Proof.
  intros H U. subst U. rewrite <- value_metadata_resolution.
  split; [repeat split|split].
  - exact (build_value_quantity_shape _ _ _ _ _ _ _ _ H).
  - intros rr Hrr. rewrite (build_reference_range _ _ _ _ _ _ _ _ H) in Hrr.
    destruct (present (LowRefRange row) || present (HighRefRange row));
      [|discriminate].
    injection Hrr as <-. eexists. split; [reflexivity|].
    apply range_dict_bounds.
Qed.

(** C8 on the first scenario's row: the value, the low bound and the
    high bound carry the same three unit fields. *)
Lemma one_unit_rule_witness :
  exists rec l',
    build_obs_dict example_cfg 0 row_glucose "obs-0" (Some "Glucose") []
    = (Ok rec, l')
    /\ let U := [("system", JStr "http://unitsofmeasure.org");
                 ("code", JStr "mg/dL"); ("unit", JStr "mg/dL")] in
       (forall q, Dict.get "valueQuantity" rec = Some q ->
                  exists x, q = JDict (("value", x) :: U))
       /\ (forall rr, Dict.get "referenceRange" rec = Some rr ->
             exists d,
               rr = JList [JDict d]
               /\ (forall b, Dict.get "low" d = Some b ->
                             exists x, b = JDict (("value", JFloat x) :: U))
               /\ (forall b, Dict.get "high" d = Some b ->
                             exists x, b = JDict (("value", JFloat x) :: U))).
Proof.
  eexists. eexists. split; [vm_compute; reflexivity|].
  exact (proj2 (one_unit_rule example_cfg 0 row_glucose "obs-0" (Some "Glucose")
                  [] _ _ eq_refl)).
Defined.

(** ** The effective date (C6) *)

(** The effective date of the record. *)
Lemma build_effective_date cfg index row obs_id display l rec l' :
  build_obs_dict cfg index row obs_id display l = (Ok rec, l') ->
  Dict.get "effectiveDateTime" rec
  = match dateobserved row with
    | Some s =>
        match PyDate.strptime_mdY s with
        | Some d => Some (JStr (PyDate.isoformat d))
        | None => None
        end
    | None => None
    end.
Proof.
  intros H.
  destruct (build_obs_dict_inv _ _ _ _ _ _ _ _ H)
    as (obs1 & l1 & obs2 & l2 & H1 & H2 & H3).
  rewrite (set_reference_range_get _ _ _ _ _ _ _ _ _ H3) by reflexivity.
  rewrite (set_value_frame _ _ _ _ _ _ _ _ H2) by reflexivity.
  pose proof (base_no_value_field cfg row obs_id display) as (_ & _ & _ & B).
  destruct (dateobserved row) as [s|] eqn:Hs.
  - destruct (PyDate.strptime_mdY s) as [d|] eqn:Hd.
    + rewrite (set_effective_date_valid _ _ _ _ _ _ Hs Hd) in H1.
      injection H1 as <- _. now rewrite get_set.
    + destruct (PyStr.truthy s) eqn:T.
      * rewrite (set_effective_date_invalid _ _ _ _ _ Hs T Hd) in H1.
        injection H1 as <- _. exact B.
      * rewrite set_effective_date_absent in H1
          by (unfold present; now rewrite Hs).
        injection H1 as <- _. exact B.
  - rewrite set_effective_date_absent in H1 by (unfold present; now rewrite Hs).
    injection H1 as <- _. exact B.
Qed.

(** The row with its date taken out. *)
Definition clear_date (row : Row) : Row :=
  mkRow (code row) (system row) (text_description row) (value row) (units row)
        (ucum row) (LowRefRange row) (HighRefRange row) (RR_Display row) None.

(** What follows the date step, from the record the date step leaves. *)
Definition after_date (index : nat) (row : Row) (obs : dict) : M dict :=
  bind (set_value index row (ucum_code row) (unit_str row) obs)
       (fun obs' => set_reference_range index row (ucum_code row) (unit_str row) obs').

Lemma uniform_after_date index row obs : uniform (after_date index row obs).
Proof.
  apply uniform_bind; [apply uniform_set_value|intro].
  apply uniform_set_reference_range.
Qed.

Lemma build_obs_dict_after_date cfg index row obs_id display l :
  build_obs_dict cfg index row obs_id display l
  = bind (set_effective_date index row (base_obs_dict cfg row obs_id display))
         (after_date index row) l.
Proof. reflexivity. Qed.

Lemma after_date_clear index row obs :
  after_date index (clear_date row) obs = after_date index row obs.
Proof. reflexivity. Qed.

(** A date that does not parse changes the log and nothing else: the
    outcome is that of the row without a date, and the log has the
    warning on top of what that row logs. *)
Lemma build_invalid_date cfg index row obs_id display l s :
  dateobserved row = Some s ->
  PyStr.truthy s = true ->
  PyDate.strptime_mdY s = None ->
  exists r l1,
    build_obs_dict cfg index (clear_date row) obs_id display l = (r, (l ++ l1)%list)
    /\ build_obs_dict cfg index row obs_id display l
       = (r, (l ++ (WARNING, ("Invalid date format for row " ++ PyStr.of_nat index
                                ++ ": " ++ s)%string) :: l1)%list).
Proof.
  intros Hs Ht Hd.
  set (base := base_obs_dict cfg row obs_id display).
  exists (outcome (after_date index row base)), (logged (after_date index row base)).
  rewrite !build_obs_dict_after_date. unfold bind. split.
  - rewrite set_effective_date_absent by reflexivity.
    rewrite after_date_clear.
    change (base_obs_dict cfg (clear_date row) obs_id display) with base.
    apply uniform_after_date.
  - fold base. rewrite (set_effective_date_invalid _ _ _ _ _ Hs Ht Hd).
    rewrite (uniform_after_date index row base). now rewrite <- app_assoc.
Qed.

(** *** Strings in the form MM/DD/YYYY *)

Lemma re_m_two_digits (m : nat) (X : string) :
  1 <= m <= 12 ->
  exists others,
    PyDate.re_m (PyStr.chars (PyStr.zero_pad 2 m ++ X))
    = (m, PyStr.chars X) :: others.
Proof.
  intros Hm.
  do 13 (destruct m as [|m]; [try lia; eexists; reflexivity|]).
  lia.
Qed.

Lemma re_d_two_digits (d : nat) (X : string) :
  1 <= d <= 31 ->
  exists others,
    PyDate.re_d (PyStr.chars (PyStr.zero_pad 2 d ++ X))
    = (d, PyStr.chars X) :: others.
Proof.
  intros Hd.
  do 32 (destruct d as [|d]; [try lia; eexists; reflexivity|]).
  lia.
Qed.

Lemma digit_char_is_digit (k : nat) :
  k < 10 ->
  PyStr.is_digit (PyStr.digit_char k) = true /\ PyDate.dig (PyStr.digit_char k) = k.
Proof.
  intros Hk.
  do 10 (destruct k as [|k]; [split; reflexivity|]).
  lia.
Qed.

(** The four characters of a year. *)
Definition year_digits (a b c e : nat) : string :=
  PyStr.of_chars [PyStr.digit_char a; PyStr.digit_char b;
                  PyStr.digit_char c; PyStr.digit_char e].

Lemma re_Y_four_digits (a b c e : nat) :
  a < 10 -> b < 10 -> c < 10 -> e < 10 ->
  PyDate.re_Y (PyStr.chars (year_digits a b c e))
  = [(1000 * a + 100 * b + 10 * c + e, [])].
Proof.
  intros Ha Hb Hc He.
  destruct (digit_char_is_digit a Ha) as [Da Va].
  destruct (digit_char_is_digit b Hb) as [Db Vb].
  destruct (digit_char_is_digit c Hc) as [Dc Vc].
  destruct (digit_char_is_digit e He) as [De Ve].
  unfold year_digits, PyStr.of_chars, PyStr.chars. simpl string_of_list_ascii.
  simpl list_ascii_of_string. unfold PyDate.re_Y.
  now rewrite Da, Db, Dc, De, Va, Vb, Vc, Ve.
Qed.

(** A date of the calendar. *)
Definition valid_date (y m d : nat) : Prop :=
  1 <= y /\ 1 <= m <= 12 /\ 1 <= d <= PyDate.days_in_month y m.

Lemma days_in_month_le_31 y m : PyDate.days_in_month y m <= 31.
Proof.
  unfold PyDate.days_in_month.
  do 12 (destruct m as [|m]; [try destruct (PyDate.is_leap y); lia|]). lia.
Qed.

(** The first way the pattern matches, from the first ways of its pieces. *)
Lemma re_match_first l m om r2 d od r4 y r5 :
  PyDate.re_m l = (m, "/"%char :: r2) :: om ->
  PyDate.re_d r2 = (d, "/"%char :: r4) :: od ->
  PyDate.re_Y r4 = [(y, r5)] ->
  PyDate.re_match l = Some (m, d, y, r5).
Proof.
  intros Hm Hd Hy. unfold PyDate.re_match, PyDate.and_then.
  rewrite Hm. simpl. rewrite Hd. simpl. rewrite Hy. reflexivity.
Qed.

(** A string of two digits, a slash, two digits, a slash and four digits
    that names a date of the calendar is read as that date. *)
Lemma strptime_two_two_four (m d a b c e : nat) :
  a < 10 -> b < 10 -> c < 10 -> e < 10 ->
  valid_date (1000 * a + 100 * b + 10 * c + e) m d ->
  PyDate.strptime_mdY
    (PyStr.zero_pad 2 m ++ "/" ++ PyStr.zero_pad 2 d ++ "/" ++ year_digits a b c e)
  = Some (PyDate.mkdate (1000 * a + 100 * b + 10 * c + e) m d).
Proof.
  intros Ha Hb Hc He (Hy & Hm & Hd).
  set (y := 1000 * a + 100 * b + 10 * c + e) in *.
  pose proof (days_in_month_le_31 y m) as H31.
  destruct (re_m_two_digits m ("/" ++ PyStr.zero_pad 2 d ++ "/" ++ year_digits a b c e) Hm)
    as (om & Em).
  destruct (re_d_two_digits d ("/" ++ year_digits a b c e)) as (od & Ed); [lia|].
  unfold PyDate.strptime_mdY.
  rewrite (re_match_first _ m om _ d od _ y [] Em Ed
             (re_Y_four_digits a b c e Ha Hb Hc He)).
  destruct Hd as [Hd1 Hd2].
  apply Nat.leb_le in Hy, Hd2. now rewrite Hy, Hd2.
Qed.

(** The form MM/DD/YYYY in the words of the specification: two digits,
    a slash, two digits, a slash, four digits. *)
Definition is_MM_DD_YYYY (s : string) : bool :=
  match PyStr.chars s with
  | [m1; m2; s1; d1; d2; s2; y1; y2; y3; y4] =>
      PyStr.is_digit m1 && PyStr.is_digit m2 && Ascii.eqb s1 "/"%char
      && PyStr.is_digit d1 && PyStr.is_digit d2 && Ascii.eqb s2 "/"%char
      && PyStr.is_digit y1 && PyStr.is_digit y2 && PyStr.is_digit y3
      && PyStr.is_digit y4
  | _ => false
  end.


(** The row of the specification's scenario of an invalid date. *)
Definition row_bad_date : Row :=
  mkRow (Some "2345-7") (Some "http://loinc.org") (Some "Glucose")
        (Some "7.5") (Some "mg/dL") (Some (Some "mg/dL"))
        None None None (Some "13/40/2024").

(** A row whose date has a month and a day of one digit. *)
Definition row_short_date : Row :=
  mkRow (Some "2345-7") (Some "http://loinc.org") (Some "Glucose")
        (Some "7.5") (Some "mg/dL") (Some (Some "mg/dL"))
        None None None (Some "3/5/2024").



(** ** The loops *)

(** The shape the three loop bodies share: the statements under [try]
    give an item, the item is pushed on the state of the loop; an
    exception is logged and the state is kept. *)
Definition guarded {S X : Type} (item : M X) (push : S -> X -> S)
    (lv : level) (msg : exn -> string) (s : S) : M S :=
  try_except_Exception
    (x <- item ;; ret (push s x))
    (fun e => logger lv (msg e) ;;; ret s).

(** The items of the rows whose statements under [try] return, in the
    order of the rows. *)
Definition items {X : Type} (item : nat -> Row -> M X)
    (irs : list (nat * Row)) : list X :=
  flat_map (fun ir => match outcome (item (fst ir) (snd ir)) with
                      | Ok x => [x]
                      | Raise _ => []
                      end) irs.

(** What a loop logs: for each row what its statements log, then the
    entry of the handler when they raise. *)
Definition loop_log {X : Type} (item : nat -> Row -> M X) (lv : level)
    (msg : nat -> exn -> string) (irs : list (nat * Row)) : list log_entry :=
  flat_map (fun ir => (logged (item (fst ir) (snd ir))
                         ++ match outcome (item (fst ir) (snd ir)) with
                            | Ok _ => []
                            | Raise e => [(lv, msg (fst ir) e)]
                            end)%list) irs.

Lemma guarded_spec {S X : Type} (item : M X) (push : S -> X -> S) lv msg s l :
  uniform item ->
  guarded item push lv msg s l
  = (Ok match outcome item with
        | Ok x => push s x
        | Raise _ => s
        end,
     (l ++ logged item
        ++ match outcome item with
           | Ok _ => []
           | Raise e => [(lv, msg e)]
           end)%list).
Proof.
  intros Hu. unfold guarded. run. rewrite (Hu l).
  destruct (outcome item) as [x|e].
  - now rewrite app_nil_r.
  - now rewrite <- app_assoc.
Qed.

(** A loop never raises: it returns the state with the items of the
    rows that went through pushed in order, and the log of all rows. *)
Lemma for_each_guarded {S X : Type} (body : nat -> Row -> S -> M S)
    (item : nat -> Row -> M X) (push : S -> X -> S) lv msg :
  (forall i r s, body i r s = guarded (item i r) push lv (msg i) s) ->
  (forall i r, uniform (item i r)) ->
  forall irs s l,
    for_each body irs s l
    = (Ok (fold_left push (items item irs) s),
       (l ++ loop_log item lv msg irs)%list).
Proof.
  intros Hb Hu irs. induction irs as [|[i r] rest IH]; intros s l.
  - simpl. unfold ret. now rewrite app_nil_r.
  - simpl for_each. unfold bind. rewrite Hb, (guarded_spec _ _ _ _ _ _ (Hu i r)).
    rewrite IH. unfold items, loop_log. simpl flat_map.
    rewrite fold_left_app, <- !app_assoc. f_equal.
    destruct (outcome (item i r)); reflexivity.
Qed.

Lemma fold_left_snoc {X : Type} (xs acc : list X) :
  fold_left (fun w x => (w ++ [x])%list) xs acc = (acc ++ xs)%list.
Proof.
  revert acc. induction xs as [|x xs IH]; intros acc; simpl.
  - now rewrite app_nil_r.
  - rewrite IH. now rewrite <- app_assoc.
Qed.

Lemma fold_left_bundle (xs : list (json * json)) (a b : list json) :
  fold_left (fun st er => mkBundleState (bundle_entries st ++ [fst er])%list
                            (result_history_entries st ++ [snd er])%list)
            xs (mkBundleState a b)
  = mkBundleState (a ++ map fst xs)%list (b ++ map snd xs)%list.
Proof.
  revert a b. induction xs as [|x xs IH]; intros a b; simpl.
  - now rewrite !app_nil_r.
  - rewrite IH. now rewrite <- !app_assoc.
Qed.

(** *** The bodies are uniform *)

Lemma uniform_file_row_body env cfg outdir index row :
  uniform (file_row_body env cfg outdir index row).
Proof.
  unfold file_row_body, write_json.
  apply uniform_bind; [apply uniform_lift|intro].
  apply uniform_bind; [apply uniform_build_obs_dict|intro].
  uniform_auto.
Qed.

Lemma uniform_bundle_row_body env cfg index row :
  uniform (bundle_row_body env cfg index row).
Proof.
  unfold bundle_row_body.
  apply uniform_bind; [apply uniform_lift|intro].
  apply uniform_bind; [apply uniform_build_obs_dict|intro].
  apply uniform_ret.
Qed.

Lemma uniform_history_row_body env index row :
  uniform (history_row_body env index row).
Proof. unfold history_row_body. uniform_auto. Qed.

(** *** The three passes *)

Definition file_error (index : nat) (e : exn) : string :=
  "Error processing row " ++ PyStr.of_nat index ++ ": " ++ exn_str e.

Definition bundle_error (index : nat) (e : exn) : string :=
  "Error processing row " ++ PyStr.of_nat index ++ " for bundle: " ++ exn_str e.

Definition history_error (index : nat) (e : exn) : string :=
  "Error creating result history row for index " ++ PyStr.of_nat index
    ++ ": " ++ exn_str e.

Lemma file_pass_spec env cfg outdir rows l :
  file_pass env cfg outdir rows l
  = (Ok (items (file_row_body env cfg outdir) (iterrows rows)),
     (l ++ loop_log (file_row_body env cfg outdir) ERROR file_error
             (iterrows rows))%list).
Proof.
  unfold file_pass.
  rewrite (for_each_guarded (file_row env cfg outdir)
             (file_row_body env cfg outdir)
             (fun w f => (w ++ [f])%list) ERROR file_error).
  - now rewrite fold_left_snoc.
  - reflexivity.
  - intros. apply uniform_file_row_body.
Qed.

Lemma bundle_pass_spec env cfg rows l :
  bundle_pass env cfg rows l
  = (Ok (mkBundleState
           (map fst (items (bundle_row_body env cfg) (iterrows rows)))
           (map snd (items (bundle_row_body env cfg) (iterrows rows)))),
     (l ++ loop_log (bundle_row_body env cfg) ERROR bundle_error
             (iterrows rows))%list).
Proof.
  unfold bundle_pass.
  rewrite (for_each_guarded (bundle_row env cfg) (bundle_row_body env cfg)
             (fun st er => mkBundleState (bundle_entries st ++ [fst er])%list
                             (result_history_entries st ++ [snd er])%list)
             ERROR bundle_error).
  - now rewrite fold_left_bundle.
  - reflexivity.
  - intros. apply uniform_bundle_row_body.
Qed.

Lemma history_pass_spec env rows l :
  history_pass env rows l
  = (Ok (items (history_row_body env) (iterrows rows)),
     (l ++ loop_log (history_row_body env) WARNING history_error
             (iterrows rows))%list).
Proof.
  unfold history_pass.
  rewrite (for_each_guarded (history_row env) (history_row_body env)
             (fun w f => (w ++ [f])%list) WARNING history_error).
  - now rewrite fold_left_snoc.
  - reflexivity.
  - intros. apply uniform_history_row_body.
Qed.

(** The state the second loop leaves. *)
Definition bundle_state (env : Env) (cfg : Config) (rows : list Row)
  : BundleState :=
  mkBundleState (map fst (items (bundle_row_body env cfg) (iterrows rows)))
                (map snd (items (bundle_row_body env cfg) (iterrows rows))).

(** What a run logs between its first and its last entry. *)
Definition run_log (env : Env) (cfg : Config) (outdir : string)
    (rows : list Row) : list log_entry :=
  (loop_log (file_row_body env cfg outdir) ERROR file_error (iterrows rows)
     ++ loop_log (bundle_row_body env cfg) ERROR bundle_error (iterrows rows)
     ++ loop_log (history_row_body env) WARNING history_error (iterrows rows))%list.

Definition first_entry (rows : list Row) (srcfile : string) : log_entry :=
  (INFO, "Processing " ++ PyStr.of_nat (List.length rows)
           ++ " observations from " ++ srcfile).

Definition last_entry (env : Env) (cfg : Config) (rows : list Row) : log_entry :=
  (INFO, "Created FHIR bundle: "
           ++ ("observations_bundle_" ++ timestamp env ++ ".json") ++ " with "
           ++ PyStr.of_nat (List.length (bundle_entries (bundle_state env cfg rows)))
           ++ " observations").

(** A run never raises; its files, its bundle and its log. *)
Lemma create_observations_spec env cfg rows srcfile outdir l :
  create_observations env cfg rows srcfile outdir l
  = (Ok (mkOutput
           (items (file_row_body env cfg outdir) (iterrows rows))
           (path_join outdir ("observations_bundle_" ++ timestamp env ++ ".json"),
            make_bundle env (bundle_state env cfg rows)
              (items (history_row_body env) (iterrows rows)))),
     (l ++ first_entry rows srcfile
        :: run_log env cfg outdir rows ++ [last_entry env cfg rows])%list).
Proof.
  unfold create_observations, bind at 1, logger at 1.
  unfold bind at 1. rewrite file_pass_spec.
  unfold bind at 1. rewrite bundle_pass_spec.
  unfold bind at 1. rewrite history_pass_spec.
  unfold bind, logger, ret, run_log.
  f_equal. rewrite <- !app_assoc. reflexivity.
Qed.

(** *** The rows and their indices *)

Lemma in_combine_seq {A : Type} (l : list A) (a i : nat) (x : A) :
  In (i, x) (combine (seq a (List.length l)) l)
  <-> a <= i /\ nth_error l (i - a) = Some x.
Proof.
  revert a. induction l as [|y l IH]; intros a; simpl.
  - split; [contradiction|]. intros [_ H]. destruct (i - a); discriminate.
  - rewrite IH. split.
    + intros [[= <- <-]|[Hle Hn]].
      * split; [lia|]. now rewrite Nat.sub_diag.
      * split; [lia|]. replace (i - a) with (S (i - S a)) by lia. exact Hn.
    + intros [Hle Hn]. destruct (i - a) as [|k] eqn:E.
      * left. injection Hn as <-. f_equal. lia.
      * right. split; [lia|]. replace (i - S a) with k by lia. exact Hn.
Qed.

Lemma in_iterrows (rows : list Row) (i : nat) (r : Row) :
  In (i, r) (iterrows rows) <-> nth_error rows i = Some r.
Proof.
  unfold iterrows. rewrite in_combine_seq, Nat.sub_0_r.
  split; [now intros [_ H]|]. intros H. split; [lia|exact H].
Qed.

Lemma map_fst_combine_seq {A : Type} (l : list A) (a : nat) :
  map fst (combine (seq a (List.length l)) l) = seq a (List.length l).
Proof.
  revert a. induction l as [|y l IH]; intros a; simpl; [reflexivity|].
  now rewrite IH.
Qed.

Lemma sorted_seq (a n : nat) : StronglySorted lt (seq a n).
Proof.
  revert a. induction n as [|n IH]; intros a; simpl; constructor.
  - apply IH.
  - apply Forall_forall. intros x Hx. apply in_seq in Hx. lia.
Qed.

Lemma sorted_map_fst_filter {A : Type} (f : nat * A -> bool) (l : list (nat * A)) :
  StronglySorted lt (map fst l) -> StronglySorted lt (map fst (filter f l)).
Proof.
  induction l as [|x l IH]; simpl; intros H; [constructor|].
  inversion H as [|? ? Hs Hf]; subst.
  destruct (f x); simpl; [|now apply IH].
  constructor; [now apply IH|].
  apply Forall_forall. intros y Hy.
  apply in_map_iff in Hy. destruct Hy as (z & <- & Hz).
  apply filter_In in Hz. destruct Hz as [Hz _].
  rewrite Forall_forall in Hf. apply Hf. now apply in_map.
Qed.

(** The rows that go through a loop keep the order of the table. *)
Lemma sorted_filter_iterrows (f : nat * Row -> bool) (rows : list Row) :
  StronglySorted lt (map fst (filter f (iterrows rows))).
Proof.
  apply sorted_map_fst_filter. unfold iterrows.
  rewrite map_fst_combine_seq. apply sorted_seq.
Qed.

(** *** Items and log entries of a loop *)

(** The statements under [try] return for this row. *)
Definition goes_through {X : Type} (item : nat -> Row -> M X)
    (ir : nat * Row) : bool :=
  match outcome (item (fst ir) (snd ir)) with
  | Ok _ => true
  | Raise _ => false
  end.

Lemma items_forall2 {X : Type} (item : nat -> Row -> M X) irs :
  Forall2 (fun ir x => outcome (item (fst ir) (snd ir)) = Ok x)
          (filter (goes_through item) irs) (items item irs).
Proof.
  induction irs as [|ir irs IH]; simpl; [constructor|].
  unfold goes_through at 1.
  destruct (outcome (item (fst ir) (snd ir))) as [x|e] eqn:E; simpl.
  - constructor; [exact E|exact IH].
  - exact IH.
Qed.

Lemma in_items {X : Type} (item : nat -> Row -> M X) irs ir x :
  In ir irs -> outcome (item (fst ir) (snd ir)) = Ok x -> In x (items item irs).
Proof.
  intros Hin Ho. unfold items. apply in_flat_map.
  exists ir. split; [exact Hin|]. rewrite Ho. now left.
Qed.

Lemma items_in {X : Type} (item : nat -> Row -> M X) irs x :
  In x (items item irs) ->
  exists ir, In ir irs /\ outcome (item (fst ir) (snd ir)) = Ok x.
Proof.
  unfold items. intros H. apply in_flat_map in H.
  destruct H as (ir & Hin & Hx). exists ir. split; [exact Hin|].
  destruct (outcome (item (fst ir) (snd ir))) as [y|e]; [|contradiction].
  destruct Hx as [->|[]]. reflexivity.
Qed.

Lemma in_loop_log_raise {X : Type} (item : nat -> Row -> M X) lv msg irs ir e :
  In ir irs -> outcome (item (fst ir) (snd ir)) = Raise e ->
  In (lv, msg (fst ir) e) (loop_log item lv msg irs).
Proof.
  intros Hin Ho. unfold loop_log. apply in_flat_map.
  exists ir. split; [exact Hin|]. rewrite Ho. apply in_or_app. right. now left.
Qed.

Lemma in_loop_log_logged {X : Type} (item : nat -> Row -> M X) lv msg irs ir w :
  In ir irs -> In w (logged (item (fst ir) (snd ir))) ->
  In w (loop_log item lv msg irs).
Proof.
  intros Hin Hw. unfold loop_log. apply in_flat_map.
  exists ir. split; [exact Hin|]. apply in_or_app. now left.
Qed.

Lemma outcome_eq {A : Type} (m : M A) (r : result A) :
  outcome m = r -> m [] = (r, logged m).
Proof. unfold outcome, logged. intros <-. now destruct (m []). Qed.

(** *** The bundle entry of a row *)

Lemma bundle_row_body_ok env cfg index row x :
  outcome (bundle_row_body env cfg index row) = Ok x ->
  exists display rec,
    get_concept_display env BundlePass index (code row) (system row) = Ok display
    /\ outcome (build_obs_dict cfg index row (uuid4 env BundlePass index) display)
       = Ok rec
    /\ x = (JDict [("fullUrl", JStr ("urn:uuid:" ++ uuid4 env BundlePass index));
                   ("resource", JDict rec)],
            JDict [("reference", JStr ("urn:uuid:" ++ uuid4 env BundlePass index))]).
Proof.
  unfold outcome at 1, bundle_row_body. run.
  destruct (get_concept_display env BundlePass index (code row) (system row))
    as [display|e]; [|discriminate].
  unfold outcome.
  destruct (build_obs_dict cfg index row (uuid4 env BundlePass index) display [])
    as [[rec|e] l1] eqn:Eb; [|discriminate].
  simpl. intros [= <-]. exists display, rec.
  split; [reflexivity|]. split; [now rewrite Eb|reflexivity].
Qed.

Lemma build_id cfg index row obs_id display rec :
  outcome (build_obs_dict cfg index row obs_id display) = Ok rec ->
  Dict.get "id" rec = Some (JStr obs_id).
Proof.
  intros H. apply outcome_eq in H.
  rewrite (build_obs_dict_frame _ _ _ _ _ _ _ _ H) by reflexivity.
  unfold base_obs_dict. now rewrite add_performer_frame.
Qed.

Lemma get_entry_make_bundle env st html_rows :
  Dict.get "entry" (make_bundle env st html_rows) = Some (JList (bundle_entries st)).
Proof.
  unfold make_bundle. destruct (Dict.truthy _); [rewrite get_set|]; reflexivity.
Qed.

Lemma has_section_make_bundle env st html_rows :
  Dict.has "section" (make_bundle env st html_rows)
  = Dict.truthy (result_history_entries st).
Proof.
  unfold make_bundle. destruct (Dict.truthy _); [rewrite has_set|]; reflexivity.
Qed.

(** ** The entries of the bundle (C4) *)


(** ** The section of the bundle (C10) *)

Lemma truthy_map {A B : Type} (f : A -> B) (xs : list A) :
  Dict.truthy (map f xs) = Dict.truthy xs.
Proof. destruct xs; reflexivity. Qed.

Lemma truthy_iff {A : Type} (xs : list A) : Dict.truthy xs = true <-> xs <> [].
Proof. destruct xs; simpl; split; congruence. Qed.

Lemma items_nonempty {X : Type} (item : nat -> Row -> M X) (rows : list Row) :
  items item (iterrows rows) <> []
  <-> exists i row, nth_error rows i = Some row /\ goes_through item (i, row) = true.
Proof.
  split.
  - intros H. destruct (items item (iterrows rows)) as [|x xs] eqn:E; [congruence|].
    assert (Hx : In x (items item (iterrows rows))) by (rewrite E; now left).
    destruct (items_in _ _ _ Hx) as ([i r] & Hin & Ho).
    exists i, r. split; [now apply in_iterrows|].
    unfold goes_through. now rewrite Ho.
  - intros (i & r & Hn & Hg) E. unfold goes_through in Hg.
    destruct (outcome (item (fst (i, r)) (snd (i, r)))) as [x|e] eqn:Ho;
      [|discriminate].
    apply in_iterrows in Hn.
    pose proof (in_items item _ _ _ Hn Ho) as Hx. rewrite E in Hx. contradiction.
Qed.


(** ** A failing row does not stop the run (C5) *)

Lemma lookup_failure_file env cfg outdir index row e :
  get_concept_display env FilePass index (code row) (system row) = Raise e ->
  outcome (file_row_body env cfg outdir index row) = Raise e.
Proof. intros H. unfold outcome, file_row_body. run. now rewrite H. Qed.

Lemma lookup_failure_bundle env cfg index row e :
  get_concept_display env BundlePass index (code row) (system row) = Raise e ->
  outcome (bundle_row_body env cfg index row) = Raise e.
Proof. intros H. unfold outcome, bundle_row_body. run. now rewrite H. Qed.

Lemma lookup_failure_history env index row e :
  get_concept_display env HistoryPass index (code row) (system row) = Raise e ->
  outcome (history_row_body env index row) = Raise e.
Proof. intros H. unfold outcome, history_row_body. run. now rewrite H. Qed.

Lemma in_run_log_file env cfg outdir rows w :
  In w (loop_log (file_row_body env cfg outdir) ERROR file_error (iterrows rows)) ->
  In w (run_log env cfg outdir rows).
Proof. intros H. unfold run_log. apply in_or_app. now left. Qed.

Lemma in_run_log_bundle env cfg outdir rows w :
  In w (loop_log (bundle_row_body env cfg) ERROR bundle_error (iterrows rows)) ->
  In w (run_log env cfg outdir rows).
Proof.
  intros H. unfold run_log. apply in_or_app. right. apply in_or_app. now left.
Qed.

Lemma in_run_log_history env cfg outdir rows w :
  In w (loop_log (history_row_body env) WARNING history_error (iterrows rows)) ->
  In w (run_log env cfg outdir rows).
Proof.
  intros H. unfold run_log. apply in_or_app. right. apply in_or_app. now right.
Qed.

Lemma in_run_log_final (l : list log_entry) (a b w : log_entry)
    (mid : list log_entry) :
  In w mid -> In w (l ++ a :: mid ++ [b])%list.
Proof.
  intros H. apply in_or_app. right. right. apply in_or_app. now left.
Qed.


(** An environment whose terminology server fails for one code. *)
Definition example_env : Env :=
  mkEnv (fun _ _ c _ =>
           if String.eqb c "0000-0" then Raise (OtherError "connection refused")
           else Ok (Some "Glucose"))
        (fun p i =>
           match p with
           | FilePass => "f-" ++ PyStr.of_nat i
           | BundlePass => "b-" ++ PyStr.of_nat i
           | HistoryPass => "h-" ++ PyStr.of_nat i
           end)
        "bundle-0"
        (fun _ => None)
        "20240315_120000"
        true.

(** A row whose code the server of [example_env] fails for. *)
Definition row_unresolved : Row :=
  mkRow (Some "0000-0") (Some "http://loinc.org") (Some "Sodium")
        (Some "140") (Some "mmol/L") (Some (Some "mmol/L"))
        None None None (Some "03/15/2024").

Definition example_rows : list Row :=
  [row_glucose; row_unresolved; row_overflow; row_susceptible].


(** ** The history table (C9) *)

Lemma digits_fuel_length (fuel n : nat) (acc : list ascii) :
  List.length acc <= List.length (PyStr.digits_fuel fuel n acc).
Proof.
  revert n acc. induction fuel as [|f IH]; intros n acc; simpl; [lia|].
  destruct (n <? 10)%nat; simpl; [lia|].
  specialize (IH (n / 10) (PyStr.digit_char (n mod 10) :: acc)). simpl in IH. lia.
Qed.

(** A number from 1000 on has four digits at least. *)
Lemma four_digits (y : nat) :
  1000 <= y -> 4 <= List.length (PyStr.digits_fuel (S y) y []).
Proof.
  intros Hy. replace (S y) with (S (S (S (S (y - 3))))) by lia.
  assert (H1 : 100 <= y / 10) by (apply Nat.div_le_lower_bound; lia).
  assert (H2 : 10 <= y / 10 / 10) by (apply Nat.div_le_lower_bound; lia).
  assert (H3 : 1 <= y / 10 / 10 / 10) by (apply Nat.div_le_lower_bound; lia).
  cbn [PyStr.digits_fuel].
  destruct (Nat.ltb_spec y 10); [lia|].
  destruct (Nat.ltb_spec (y / 10) 10); [lia|].
  destruct (Nat.ltb_spec (y / 10 / 10) 10); [lia|].
  destruct (y / 10 / 10 / 10 <? 10)%nat; [simpl; lia|].
  eapply Nat.le_trans; [|apply digits_fuel_length]. simpl. lia.
Qed.

(** From the year 1000 on, [%Y] is the same with and without padding. *)
Lemma strftime_Y_four (pads : bool) (y : nat) :
  1000 <= y -> PyDate.strftime_Y pads y = PyStr.zero_pad 4 y.
Proof.
  intros Hy. unfold PyDate.strftime_Y. destruct pads; [reflexivity|].
  unfold PyStr.zero_pad, PyStr.of_nat.
  pose proof (four_digits y Hy) as H.
  replace (4 - List.length (PyStr.digits_fuel (S y) y [])) with 0 by lia.
  reflexivity.
Qed.

(** The cell of the test name: the display the lookup returned when it
    is not empty, else the description of the row as it prints. *)
Definition history_name (display : option string) (row : Row) : string :=
  match display with
  | Some d => if PyStr.truthy d then d else cell_str (text_description row)
  | None => cell_str (text_description row)
  end.

(** The cell of the result: empty without a value; else the value as
    read, then a blank and the units as read, or the ucum code as read
    when there are no units, or nothing. *)
Definition history_value (row : Row) : string :=
  if present (value row) then
    if present (units row) then cell_str (value row) ++ " " ++ cell_str (units row)
    else match ucum row with
         | Some u =>
             if present u then cell_str (value row) ++ " " ++ cell_str u
             else cell_str (value row)
         | None => cell_str (value row)
         end
  else EmptyString.

(** The cell of the date: empty without a date; the date as day, month
    and year when it reads as month/day/year; else the string as read. *)
Definition history_date (pads : bool) (row : Row) : string :=
  match dateobserved row with
  | Some s =>
      if PyStr.truthy s then
        match PyDate.strptime_mdY s with
        | Some d => PyDate.strftime_dmY pads d
        | None => s
        end
      else EmptyString
  | None => EmptyString
  end.

(** The third loop reads [row['ucum']] for this row though the table has
    no such column. *)
Definition reads_missing_ucum (row : Row) : bool :=
  present (value row) && negb (present (units row))
  && match ucum row with
     | Some _ => false
     | None => true
     end.

Lemma history_row_body_spec env index row :
  outcome (history_row_body env index row)
  = match get_concept_display env HistoryPass index (code row) (system row) with
    | Raise e => Raise e
    | Ok display =>
        if reads_missing_ucum row then Raise (KeyError "'ucum'")
        else Ok (html_row (history_name display row) (history_value row)
                   (history_date (libc_pads_year env) row))
    end.
Proof.
  unfold outcome, history_row_body, reads_missing_ucum, history_value, row_ucum.
  run.
  destruct (get_concept_display env HistoryPass index (code row) (system row))
    as [display|e]; [|reflexivity].
  destruct (present (value row)); [|reflexivity].
  destruct (present (units row)); [reflexivity|].
  destruct (ucum row) as [u|]; [|reflexivity].
  destruct (present u); reflexivity.
Qed.

Lemma get_section_make_bundle env st html_rows sec :
  Dict.get "section" (make_bundle env st html_rows) = Some sec ->
  sec = JList [JDict (result_history_section html_rows (result_history_entries st))].
Proof.
  unfold make_bundle. destruct (Dict.truthy _).
  - rewrite get_set. simpl. now intros [= <-].
  - discriminate.
Qed.




(** * Further properties of the record *)

(** ** The fields every record has *)


(** A configuration whose performer is the empty string. *)
Definition cfg_empty_performer : Config :=
  mkConfig None (Some EmptyString).

(** A row without description, for which the lookup returns nothing. *)
Definition row_bare : Row :=
  mkRow (Some "2345-7") (Some "http://loinc.org") None None None None
        None None None None.


(** ** At most one value field *)

(** *** A blank string is no number *)

Lemma lstrip_with_all (sp : ascii -> bool) (l : list ascii) :
  PyStr.lstrip_with sp l = [] -> Forall (fun c => sp c = true) l.
Proof.
  induction l as [|a t IH]; simpl; [constructor|].
  destruct (sp a) eqn:E; [|discriminate].
  intros H. constructor; [exact E|now apply IH].
Qed.

Lemma lstrip_with_head (sp : ascii -> bool) (l : list ascii) a t :
  PyStr.lstrip_with sp l = a :: t -> sp a = false.
Proof.
  induction l as [|b r IH]; simpl; [discriminate|].
  destruct (sp b) eqn:E; [exact IH|]. now intros [= <- _].
Qed.

Lemma lstrip_with_sub (sp : ascii -> bool) (P : ascii -> Prop) (l : list ascii) :
  Forall P l -> Forall P (PyStr.lstrip_with sp l).
Proof.
  induction 1 as [|a t Ha Ht IH]; simpl; [constructor|].
  destruct (sp a); [exact IH|now constructor].
Qed.

Lemma rstrip_with_sub (sp : ascii -> bool) (P : ascii -> Prop) (l : list ascii) :
  Forall P l -> Forall P (PyStr.rstrip_with sp l).
Proof.
  intros H. unfold PyStr.rstrip_with.
  apply Forall_rev, lstrip_with_sub, Forall_rev. exact H.
Qed.

(** Stripping on both sides leaves nothing only when every character
    is a blank. *)
Lemma strip_nil_all (sp : ascii -> bool) (l : list ascii) :
  PyStr.rstrip_with sp (PyStr.lstrip_with sp l) = [] ->
  Forall (fun c => sp c = true) l.
Proof.
  unfold PyStr.rstrip_with. intros H.
  destruct (PyStr.lstrip_with sp l) as [|a t] eqn:E.
  - now apply lstrip_with_all.
  - exfalso. pose proof (lstrip_with_head _ _ _ _ E) as Ha.
    assert (H' : PyStr.lstrip_with sp (rev (a :: t)) = []).
    { apply (f_equal (@rev ascii)) in H. now rewrite rev_involutive in H. }
    apply lstrip_with_all in H'. rewrite Forall_forall in H'.
    assert (Hin : In a (rev (a :: t))) by (apply in_rev; rewrite rev_involutive; now left).
    rewrite (H' a Hin) in Ha. discriminate.
Qed.

Lemma of_chars_nil (l : list ascii) : PyStr.of_chars l = EmptyString -> l = [].
Proof. destruct l; [reflexivity|discriminate]. Qed.

(** Neither a decimal literal nor an infinity or a NaN starts with a
    blank. *)
Lemma no_number_starts_blank (a : ascii) (r : list ascii) :
  PyStr.str_isspace a = true ->
  PyFloat.parse_decimal (a :: r) = None /\ PyFloat.parse_inf_or_nan (a :: r) = None.
Proof.
  destruct a as [b0 b1 b2 b3 b4 b5 b6 b7].
  destruct b0, b1, b2, b3, b4, b5, b6, b7; try discriminate; intros _;
    split; reflexivity.
Qed.

Lemma blank_not_underscore (a : ascii) :
  PyStr.str_isspace a = true -> Ascii.eqb a "_"%char = false.
Proof.
  destruct a as [b0 b1 b2 b3 b4 b5 b6 b7].
  destruct b0, b1, b2, b3, b4, b5, b6, b7; try discriminate; reflexivity.
Qed.

(** [float] raises [ValueError] on a string that [strip] empties. *)
Lemma float_of_blank (v : string) :
  PyStr.truthy (PyStr.strip v) = false -> PyFloat.float_of_string v = None.
Proof.
  intros H. apply truthy_false_empty, of_chars_nil, strip_nil_all in H.
  unfold PyFloat.float_of_string.
  assert (Hu : PyFloat.has_underscore (PyStr.chars v) = false).
  { unfold PyFloat.has_underscore. induction H as [|a t Ha _ IH]; simpl; [reflexivity|].
    now rewrite (blank_not_underscore a Ha). }
  rewrite Hu. unfold PyFloat.from_stripped.
  pose proof (rstrip_with_sub PyStr.c_isspace _ _
                (lstrip_with_sub PyStr.c_isspace _ _ H)) as Hs.
  destruct (PyStr.rstrip_with PyStr.c_isspace
              (PyStr.lstrip_with PyStr.c_isspace (PyStr.chars v))) as [|a r];
    [reflexivity|].
  inversion Hs as [|? ? Ha _]; subst.
  destruct (no_number_starts_blank a r Ha) as [-> ->]. reflexivity.
Qed.

(** What the value step does to the record, case by case. *)
Lemma set_value_inv index row uc us obs l obs' l' :
  set_value index row uc us obs l = (Ok obs', l') ->
  (obs' = obs
   /\ match value row with
      | Some v => PyStr.truthy (PyStr.strip v) = false
      | None => True
      end)
  \/ ((exists j, obs' = Dict.set "valueQuantity" j obs
                 \/ obs' = Dict.set "valueCodeableConcept" j obs
                 \/ obs' = Dict.set "valueString" j obs)
      /\ exists v, value row = Some v /\ PyStr.truthy (PyStr.strip v) = true).
Proof.
  unfold set_value, py_float.
  destruct (value row) as [v|]; [|intros [= <- _]; left; split; [reflexivity|exact I]].
  destruct (PyStr.truthy v) eqn:T.
  2:{ intros [= <- _]. left. split; [reflexivity|].
      now rewrite (truthy_false_empty _ T). }
  run.
  destruct (PyStr.truthy (PyStr.strip v)) eqn:S.
  - intros H. right. split; [|eauto].
    destruct (PyFloat.float_of_string v) as [f|].
    + destruct (PyFloat.gt_int f 9).
      * destruct (PyFloat.py_round f) as [z|[]]; try discriminate.
        -- injection H as <- _. eauto.
        -- destruct (abx_lookup _ _); injection H as <- _; eauto.
      * injection H as <- _. eauto.
    + destruct (abx_lookup _ _); injection H as <- _; eauto.
  - rewrite (float_of_blank v S). rewrite (truthy_false_empty _ S). simpl.
    intros [= <- _]. left. split; reflexivity.
Qed.


(** A row whose value is made of blanks. *)
Definition row_blank_value : Row :=
  mkRow (Some "2345-7") (Some "http://loinc.org") (Some "Glucose")
        (Some "   ") None None None None None None.


(** ** The one way a record fails *)

Lemma set_value_raise_inv index row uc us obs l e l' :
  set_value index row uc us obs l = (Raise e, l') ->
  e = OverflowError "cannot convert float infinity to integer"
  /\ exists v, value row = Some v
               /\ PyFloat.float_of_string v = Some (S754_infinity false).
Proof.
  unfold set_value, py_float.
  destruct (value row) as [v|]; [|discriminate].
  destruct (PyStr.truthy v); [|discriminate].
  run.
  destruct (PyFloat.float_of_string v) as [f|] eqn:Hf.
  - destruct (PyFloat.gt_int f 9) eqn:Hg; [|discriminate].
    destruct (gt_9_cases f Hg) as [->|(m & e0 & ->)].
    + simpl. intros [= <- _]. split; [reflexivity|].
      exists v. split; [reflexivity|exact Hf].
    + simpl. discriminate.
  - destruct (abx_lookup _ _); [discriminate|].
    destruct (PyStr.truthy _); discriminate.
Qed.



(** ** The bounds are not rounded *)

(** A bound of the reference range that parses is stored as the parsed
    float itself, above 9 too: the rounding of the value does not apply
    to the bounds.  Each bound is stored whether or not the other one
    parses. *)
Theorem bounds_not_rounded cfg index row obs_id display l rec l' :
  build_obs_dict cfg index row obs_id display l = (Ok rec, l') ->
  (forall s f,
      LowRefRange row = Some s -> PyFloat.float_of_string s = Some f ->
      exists d,
        Dict.get "referenceRange" rec = Some (JList [JDict d])
        /\ Dict.get "low" d
           = Some (JDict (("value", JFloat f)
                            :: value_metadata (ucum_code row) (unit_str row))))
  /\ (forall s f,
        HighRefRange row = Some s -> PyFloat.float_of_string s = Some f ->
        exists d,
          Dict.get "referenceRange" rec = Some (JList [JDict d])
          /\ Dict.get "high" d
             = Some (JDict (("value", JFloat f)
                              :: value_metadata (ucum_code row) (unit_str row)))).
Proof.
  intros H. pose proof (build_reference_range _ _ _ _ _ _ _ _ H) as G.
  split; intros s f Hs Hf.
  - assert (P : present (LowRefRange row) = true)
      by (unfold present; rewrite Hs; exact (float_truthy _ _ Hf)).
    rewrite P in G. eexists. split; [exact G|].
    unfold range_dict. rewrite get_app. unfold range_bound at 1.
    now rewrite Hs, Hf.
  - assert (P : present (HighRefRange row) = true)
      by (unfold present; rewrite Hs; exact (float_truthy _ _ Hf)).
    rewrite P, orb_true_r in G. eexists. split; [exact G|].
    unfold range_dict. rewrite get_app.
    rewrite get_range_bound_other by reflexivity.
    rewrite get_app. unfold range_bound at 1. now rewrite Hs, Hf.
Qed.

(** A row whose value and bounds are all above 9 and not whole. *)
Definition row_wide_range : Row :=
  mkRow (Some "2345-7") (Some "http://loinc.org") (Some "Glucose")
        (Some "15.2") None None (Some "10.5") (Some "x") None None.

(** The value 15.2 is stored as 15, the low bound 10.5 as 10.5
    (5910974510923776 * 2^-49); the high bound does not parse and does
    not take the low bound away. *)
Lemma bounds_not_rounded_witness :
  exists rec l',
    build_obs_dict example_cfg 0 row_wide_range "obs-0" None [] = (Ok rec, l')
    /\ Dict.get "valueQuantity" rec = Some (JDict [("value", JInt 15)])
    /\ exists d,
         Dict.get "referenceRange" rec = Some (JList [JDict d])
         /\ Dict.get "low" d
            = Some (JDict [("value", JFloat (S754_finite false 5910974510923776 (-49)))]).
Proof.
  eexists. eexists. split; [vm_compute; reflexivity|].
  split; [reflexivity|].
  exact (proj1 (bounds_not_rounded example_cfg 0 row_wide_range "obs-0" None []
                  _ _ eq_refl) "10.5" _ eq_refl eq_refl).
Defined.

(** ** One row, two identifiers *)

(** Assignments to two keys commute when the first key is already in
    the dictionary. *)
Lemma set_set_comm (k1 k2 : string) (v w : json) (d : dict) :
  Dict.has k1 d = true -> String.eqb k1 k2 = false ->
  Dict.set k1 v (Dict.set k2 w d) = Dict.set k2 w (Dict.set k1 v d).
Proof.
  intros Hh Hk. unfold Dict.has in Hh.
  induction d as [|[k0 v0] r IH]; simpl in *; [discriminate|].
  destruct (String.eqb k1 k0) eqn:E1.
  - apply String.eqb_eq in E1. subst k0.
    rewrite String.eqb_sym, Hk. simpl.
    rewrite String.eqb_refl, String.eqb_sym, Hk. reflexivity.
  - destruct (String.eqb k2 k0) eqn:E2; simpl; rewrite E1, E2; [reflexivity|].
    now rewrite IH.
Qed.

(** An outcome with the identifier of its record replaced. *)
Definition with_id (x : json) (r : result dict * list log_entry)
  : result dict * list log_entry :=
  match r with
  | (Ok o, l) => (Ok (Dict.set "id" x o), l)
  | (Raise e, l) => (Raise e, l)
  end.

Lemma set_effective_date_with_id index row obs l x :
  Dict.has "id" obs = true ->
  set_effective_date index row (Dict.set "id" x obs) l
  = with_id x (set_effective_date index row obs l).
Proof.
  intros Hh. unfold set_effective_date, py_strptime.
  destruct (dateobserved row) as [s|]; [|reflexivity].
  destruct (PyStr.truthy s); [|reflexivity]. run.
  destruct (PyDate.strptime_mdY s); [|reflexivity].
  unfold with_id. f_equal. f_equal. symmetry.
  apply set_set_comm; [exact Hh|reflexivity].
Qed.

Lemma set_value_with_id index row uc us obs l x :
  Dict.has "id" obs = true ->
  set_value index row uc us (Dict.set "id" x obs) l
  = with_id x (set_value index row uc us obs l).
Proof.
  intros Hh. unfold set_value, py_float.
  destruct (value row) as [v|]; [|reflexivity].
  destruct (PyStr.truthy v); [|reflexivity]. run.
  assert (Hc : forall k y, String.eqb "id" k = false ->
                           Dict.set k y (Dict.set "id" x obs)
                           = Dict.set "id" x (Dict.set k y obs)).
  { intros k y Hk. symmetry. now apply set_set_comm. }
  destruct (PyFloat.float_of_string v) as [f|];
    [destruct (PyFloat.gt_int f 9); [destruct (PyFloat.py_round f) as [z|[]]|]|];
    try (destruct (abx_lookup _ _); [|destruct (PyStr.truthy _)]);
    cbv beta iota delta [with_id]; rewrite ?Hc by reflexivity; reflexivity.
Qed.

Lemma set_reference_range_with_id index row uc us obs l x :
  Dict.has "id" obs = true ->
  set_reference_range index row uc us (Dict.set "id" x obs) l
  = with_id x (set_reference_range index row uc us obs l).
Proof.
  intros Hh.
  destruct (present (LowRefRange row) || present (HighRefRange row)) eqn:P.
  - rewrite !(set_reference_range_given _ _ _ _ _ _ P). simpl.
    f_equal. f_equal. symmetry. now apply set_set_comm.
  - now rewrite !(set_reference_range_absent _ _ _ _ _ _ P).
Qed.

Lemma base_with_id cfg row id1 id2 display :
  base_obs_dict cfg row id2 display
  = Dict.set "id" (JStr id2) (base_obs_dict cfg row id1 display)
  /\ Dict.has "id" (base_obs_dict cfg row id1 display) = true.
Proof.
  unfold base_obs_dict, add_performer.
  destruct (performer_val cfg) as [p|]; [|split; reflexivity].
  destruct (String.eqb p "unknown"); [split; reflexivity|].
  destruct (PyStr.truthy p); split; reflexivity.
Qed.

Lemma has_id_kept_date index row obs l obs' l' :
  set_effective_date index row obs l = (Ok obs', l') ->
  Dict.has "id" obs = true -> Dict.has "id" obs' = true.
Proof.
  intros H Hh.
  destruct (set_effective_date_frame index row obs l) as (o & l0 & E & F).
  rewrite H in E. injection E as <- <-.
  unfold Dict.has in *. now rewrite F.
Qed.

Lemma has_id_kept_value index row uc us obs l obs' l' :
  set_value index row uc us obs l = (Ok obs', l') ->
  Dict.has "id" obs = true -> Dict.has "id" obs' = true.
Proof.
  intros H Hh. unfold Dict.has in *.
  now rewrite (set_value_frame _ _ _ _ _ _ _ _ H).
Qed.

(** The outcome of a row under one identifier is its outcome under
    another with the identifier replaced. *)
Lemma build_obs_dict_any_id cfg index row id1 id2 display l :
  build_obs_dict cfg index row id2 display l
  = with_id (JStr id2) (build_obs_dict cfg index row id1 display l).
Proof.
  destruct (base_with_id cfg row id1 id2 display) as [Eb Hb].
  unfold build_obs_dict, bind.
  fold (base_obs_dict cfg row id2 display) (base_obs_dict cfg row id1 display).
  rewrite Eb, (set_effective_date_with_id _ _ _ _ _ Hb).
  destruct (set_effective_date index row (base_obs_dict cfg row id1 display) l)
    as [[obs1|e] l1] eqn:H1; [|reflexivity].
  simpl. pose proof (has_id_kept_date _ _ _ _ _ _ H1 Hb) as Hd.
  rewrite (set_value_with_id _ _ _ _ _ _ _ Hd).
  destruct (set_value index row (ucum_code row) (unit_str row) obs1 l1)
    as [[obs2|e] l2] eqn:H2; [|reflexivity].
  simpl. pose proof (has_id_kept_value _ _ _ _ _ _ _ _ H2 Hd) as Hv.
  apply (set_reference_range_with_id _ _ _ _ _ _ _ Hv).
Qed.

Lemma build_obs_dict_with_id cfg index row id1 id2 display l rec l' :
  build_obs_dict cfg index row id1 display l = (Ok rec, l') ->
  build_obs_dict cfg index row id2 display l
  = (Ok (Dict.set "id" (JStr id2) rec), l').
Proof.
  intros H. now rewrite (build_obs_dict_any_id cfg index row id1 id2), H.
Qed.

(** The outcome of a row does not depend on its identifier but in the
    field [id] of the record: built a second time under another
    identifier, as the second loop does, the row gives the same record
    with that identifier and the same log; and a row that fails under
    one identifier fails under the other, with the same exception and
    the same log. *)
Theorem record_up_to_id cfg index row id1 id2 display l :
  (forall rec l',
      build_obs_dict cfg index row id1 display l = (Ok rec, l') ->
      build_obs_dict cfg index row id2 display l
      = (Ok (Dict.set "id" (JStr id2) rec), l'))
  /\ (forall e l',
        build_obs_dict cfg index row id1 display l = (Raise e, l') ->
        build_obs_dict cfg index row id2 display l = (Raise e, l')).
Proof.
  split.
  - intros rec l' H.
    rewrite (build_obs_dict_any_id cfg index row id1 id2), H. reflexivity.
  - intros e l' H.
    rewrite (build_obs_dict_any_id cfg index row id1 id2), H. reflexivity.
Qed.

(** The first scenario's row under the identifiers of the two loops. *)
Lemma record_up_to_id_witness :
  exists rec l',
    build_obs_dict example_cfg 0 row_glucose "f-0" (Some "Glucose") [] = (Ok rec, l')
    /\ build_obs_dict example_cfg 0 row_glucose "b-0" (Some "Glucose") []
       = (Ok (Dict.set "id" (JStr "b-0") rec), l').
Proof.
  eexists. eexists. split; [vm_compute; reflexivity|].
  exact (proj1 (record_up_to_id example_cfg 0 row_glucose "f-0" "b-0"
                  (Some "Glucose") []) _ _ eq_refl).
Defined.

(** ** The back-references of the section *)

Lemma items_urls env cfg irs :
  Forall2 (fun e r => exists url res,
               e = JDict [("fullUrl", JStr url); ("resource", res)]
               /\ r = JDict [("reference", JStr url)])
          (map fst (items (bundle_row_body env cfg) irs))
          (map snd (items (bundle_row_body env cfg) irs)).
Proof.
  assert (H : forall x, In x (items (bundle_row_body env cfg) irs) ->
                        exists url res,
                          fst x = JDict [("fullUrl", JStr url); ("resource", res)]
                          /\ snd x = JDict [("reference", JStr url)]).
  { intros x Hx. destruct (items_in _ _ _ Hx) as (ir & _ & Ho).
    destruct (bundle_row_body_ok _ _ _ _ _ Ho) as (display & rec & _ & _ & ->).
    simpl. eauto. }
  induction (items (bundle_row_body env cfg) irs) as [|x xs IH]; simpl;
    constructor.
  - apply H. now left.
  - apply IH. intros y Hy. apply H. now right.
Qed.


(** * The files of the first loop *)

(** The name of the file of a row: [f"observation_{safe_code}_{index:03d}.json"]. *)
Definition observation_filename (c : string) (index : nat) : string :=
  "observation_"
    ++ PyStr.replace_char "\"%char "-"%char (PyStr.replace_char "/"%char "-"%char c)
    ++ "_" ++ PyStr.zero_pad 3 index ++ ".json".

Lemma file_row_body_ok env cfg outdir index row f :
  outcome (file_row_body env cfg outdir index row) = Ok f ->
  exists c display rec,
    code row = Some c
    /\ get_concept_display env FilePass index (code row) (system row) = Ok display
    /\ outcome (build_obs_dict cfg index row (uuid4 env FilePass index) display)
       = Ok rec
    /\ open_file env (path_join outdir (observation_filename c index)) = None
    /\ f = (path_join outdir (observation_filename c index), rec).
Proof.
  unfold outcome at 1, file_row_body, write_json. run.
  destruct (get_concept_display env FilePass index (code row) (system row))
    as [display|e]; [|discriminate].
  unfold outcome.
  destruct (build_obs_dict cfg index row (uuid4 env FilePass index) display [])
    as [[rec|e] l1] eqn:Eb; [|discriminate].
  destruct (code row) as [c|]; [|discriminate].
  fold (observation_filename c index).
  destruct (open_file env (path_join outdir (observation_filename c index)))
    as [e|] eqn:Eo; [discriminate|].
  simpl. intros [= <-]. exists c, display, rec.
  split; [reflexivity|]. split; [reflexivity|].
  split; [now rewrite Eb|]. split; [exact Eo|reflexivity].
Qed.


(** ** File names *)

Lemma chars_app (a b : string) :
  PyStr.chars (a ++ b) = (PyStr.chars a ++ PyStr.chars b)%list.
Proof.
  unfold PyStr.chars. induction a as [|c a IH]; simpl; [reflexivity|].
  now rewrite IH.
Qed.

Lemma chars_of_chars (l : list ascii) : PyStr.chars (PyStr.of_chars l) = l.
Proof. apply list_ascii_of_string_of_list_ascii. Qed.

(** The value of a run of decimal digits. *)
Definition dval (l : list ascii) : nat :=
  fold_left (fun a c => 10 * a + PyDate.dig c) l 0.

Lemma dval_snoc (d : list ascii) (x : ascii) :
  dval (d ++ [x]) = 10 * dval d + PyDate.dig x.
Proof. unfold dval. now rewrite fold_left_app. Qed.

(** The digits written for a number are digits, and they read back as
    the number. *)
Lemma digits_fuel_spec (fuel n : nat) (acc : list ascii) :
  n < fuel ->
  exists d,
    PyStr.digits_fuel fuel n acc = (d ++ acc)%list
    /\ dval d = n
    /\ Forall (fun c => PyStr.is_digit c = true) d.
Proof.
  revert n acc. induction fuel as [|f IH]; intros n acc Hn; [lia|].
  cbn [PyStr.digits_fuel]. destruct (Nat.ltb_spec n 10) as [Hlt|Hge].
  - exists [PyStr.digit_char (n mod 10)].
    rewrite (Nat.mod_small n 10 Hlt).
    destruct (digit_char_is_digit n Hlt) as [Hd Hv].
    split; [reflexivity|]. split; [unfold dval; cbn [fold_left]; lia|].
    constructor; [exact Hd|constructor].
  - assert (Hq : n / 10 < f).
    { assert (n / 10 < n) by (apply Nat.div_lt; lia). lia. }
    destruct (IH (n / 10) (PyStr.digit_char (n mod 10) :: acc) Hq)
      as (d & Ed & Vd & Fd).
    assert (Hm : n mod 10 < 10) by (apply Nat.mod_upper_bound; lia).
    destruct (digit_char_is_digit (n mod 10) Hm) as [Hd Hv].
    exists (d ++ [PyStr.digit_char (n mod 10)])%list.
    split; [now rewrite Ed, <- app_assoc|].
    split.
    + rewrite dval_snoc, Vd, Hv. symmetry. apply Nat.div_mod_eq.
    + apply Forall_app. split; [exact Fd|]. constructor; [exact Hd|constructor].
Qed.

Lemma dval_zeros (k : nat) (d : list ascii) :
  dval (repeat "0"%char k ++ d) = dval d.
Proof.
  unfold dval. rewrite fold_left_app.
  replace (fold_left (fun a c => 10 * a + PyDate.dig c) (repeat "0"%char k) 0)
    with 0; [reflexivity|].
  induction k as [|k IH]; simpl; [reflexivity|exact IH].
Qed.

(** [f"{n:0{w}d}"] is made of digits and reads back as [n]. *)
Lemma zero_pad_spec (w n : nat) :
  dval (PyStr.chars (PyStr.zero_pad w n)) = n
  /\ Forall (fun c => PyStr.is_digit c = true) (PyStr.chars (PyStr.zero_pad w n)).
Proof.
  unfold PyStr.zero_pad. rewrite chars_of_chars.
  destruct (digits_fuel_spec (S n) n [] (Nat.lt_succ_diag_r n)) as (d & Ed & Vd & Fd).
  rewrite Ed, app_nil_r. split.
  - now rewrite dval_zeros.
  - apply Forall_app. split; [|exact Fd].
    apply Forall_forall. intros c Hc. apply repeat_spec in Hc. now subst c.
Qed.

Lemma span_digits_run (d r : list ascii) (c : ascii) :
  Forall (fun x => PyStr.is_digit x = true) d ->
  PyStr.is_digit c = false ->
  PyFloat.span_digits (d ++ c :: r) = (d, c :: r).
Proof.
  intros Hd Hc. induction Hd as [|x d Hx _ IH]; simpl.
  - now rewrite Hc.
  - now rewrite Hx, IH.
Qed.

(** The index read back from the name of a file: the digits that stand
    before the extension. *)
Definition index_of_filename (name : string) : nat :=
  dval (rev (fst (PyFloat.span_digits (skipn 5 (rev (PyStr.chars name)))))).

Lemma index_of_observation_filename (c : string) (index : nat) :
  index_of_filename (observation_filename c index) = index.
Proof.
  unfold index_of_filename, observation_filename.
  set (safe := PyStr.replace_char _ _ _).
  destruct (zero_pad_spec 3 index) as [Hv Hd].
  rewrite !chars_app, !rev_app_distr.
  change (rev (PyStr.chars ".json"))
    with ["n"%char; "o"%char; "s"%char; "j"%char; "."%char].
  change (rev (PyStr.chars "_")) with ["_"%char].
  rewrite <- !app_assoc. simpl skipn. simpl app at 2.
  rewrite span_digits_run; [|now apply Forall_rev|reflexivity].
  simpl fst. now rewrite rev_involutive.
Qed.

Lemma in_replace_char (a b x : ascii) (s : string) :
  In x (PyStr.chars (PyStr.replace_char a b s)) ->
  x = b \/ (In x (PyStr.chars s) /\ x <> a).
Proof.
  unfold PyStr.chars. induction s as [|c s IH]; simpl; [contradiction|].
  intros [H|H].
  - destruct (Ascii.eqb c a) eqn:E; [now left|].
    right. split; [now left|]. subst x. now apply Ascii.eqb_neq.
  - destruct (IH H) as [->|[Hin Hne]]; [now left|right; auto].
Qed.

Lemma digit_not_separator (c : ascii) :
  PyStr.is_digit c = true -> c <> "/"%char /\ c <> "\"%char.
Proof. intros H. split; intros ->; discriminate. Qed.

(** The name of a file holds no slash and no backslash, whatever the
    code of the row: the file is written in the output directory
    itself.  The name tells the index of its row, so that the rows of a
    table, whose indices differ, never write the same file. *)
Theorem file_names_safe_and_distinct (c1 c2 : string) (i j : nat) :
  (~ In "/"%char (PyStr.chars (observation_filename c1 i))
   /\ ~ In "\"%char (PyStr.chars (observation_filename c1 i)))
  /\ index_of_filename (observation_filename c1 i) = i
  /\ (observation_filename c1 i = observation_filename c2 j -> i = j).
Proof.
  split; [|split].
  - unfold observation_filename. rewrite !chars_app.
    destruct (zero_pad_spec 3 i) as [_ Hd]. rewrite Forall_forall in Hd.
    split; intros H; repeat (apply in_app_or in H; destruct H as [H|H]).
    + simpl in H. repeat (destruct H as [H|H]; [discriminate H|]). exact H.
    + apply in_replace_char in H. destruct H as [H|[H _]]; [discriminate|].
      apply in_replace_char in H. destruct H as [H|[_ H]]; [discriminate|].
      now apply H.
    + simpl in H. destruct H as [H|[]]. discriminate.
    + destruct (digit_not_separator _ (Hd _ H)) as [N _]. now apply N.
    + simpl in H. repeat (destruct H as [H|H]; [discriminate H|]). exact H.
    + simpl in H. repeat (destruct H as [H|H]; [discriminate H|]). exact H.
    + apply in_replace_char in H. destruct H as [H|[_ H]]; [discriminate|].
      now apply H.
    + simpl in H. destruct H as [H|[]]. discriminate.
    + destruct (digit_not_separator _ (Hd _ H)) as [_ N]. now apply N.
    + simpl in H. repeat (destruct H as [H|H]; [discriminate H|]). exact H.
  - apply index_of_observation_filename.
  - intros E. rewrite <- (index_of_observation_filename c1 i),
      <- (index_of_observation_filename c2 j). now rewrite E.
Qed.

(** ** The files and the bundle *)

(** The entry of the bundle and its back-reference for a record. *)
Definition entry_of (obs_id : string) (rec : dict) : json * json :=
  (JDict [("fullUrl", JStr ("urn:uuid:" ++ obs_id));
          ("resource", JDict (Dict.set "id" (JStr obs_id) rec))],
   JDict [("reference", JStr ("urn:uuid:" ++ obs_id))]).

Lemma written_row_has_entry env cfg outdir index row f :
  outcome (file_row_body env cfg outdir index row) = Ok f ->
  get_concept_display env BundlePass index (code row) (system row)
  = get_concept_display env FilePass index (code row) (system row) ->
  outcome (bundle_row_body env cfg index row)
  = Ok (entry_of (uuid4 env BundlePass index) (snd f)).
Proof.
  intros Hf Hl.
  destruct (file_row_body_ok _ _ _ _ _ _ Hf)
    as (c & display & rec & _ & Hd & Hb & _ & ->).
  unfold outcome in Hb.
  destruct (build_obs_dict cfg index row (uuid4 env FilePass index) display [])
    as [r l1] eqn:Eb. simpl in Hb. subst r.
  unfold outcome, bundle_row_body. run. rewrite Hl, Hd.
  rewrite (build_obs_dict_with_id _ _ _ _ (uuid4 env BundlePass index) _ _ _ _ Eb).
  reflexivity.
Qed.



(** * Further properties of the lookup *)

(** ** Reading the answer *)

Lemma scan_parameters_cons (x : Lookup.pyval) (rest : list Lookup.pyval) :
  Lookup.scan_parameters (x :: rest)
  = match Lookup.scan_parameters [x] with
    | Ok None => Lookup.scan_parameters rest
    | r => r
    end.
Proof.
  simpl. unfold Lookup.rbind.
  destruct (Lookup.py_get x "name" Lookup.PNone) as [n|e]; [|reflexivity].
  destruct (Lookup.eq_str n "display").
  - destruct (Lookup.py_get x "valueString" Lookup.PNone); reflexivity.
  - destruct (Lookup.eq_str n "property"); [|reflexivity].
    destruct (Lookup.py_get x "part" (Lookup.PList [])) as [a|e]; [|reflexivity].
    destruct (Lookup.py_iter a) as [ps|e]; [|reflexivity].
    destruct (Lookup.scan_parts x ps) as [[v|]|e]; reflexivity.
Qed.

(** Parameters that give nothing are passed over. *)
Lemma scan_parameters_skip (pre rest : list Lookup.pyval) :
  Forall (fun x => Lookup.scan_parameters [x] = Ok None) pre ->
  Lookup.scan_parameters (pre ++ rest) = Lookup.scan_parameters rest.
Proof.
  induction 1 as [|x pre Hx _ IH]; [reflexivity|].
  simpl app. rewrite scan_parameters_cons, Hx. exact IH.
Qed.

(** The value a dictionary holds under a key, [None] when it holds none. *)
Definition field (k : string) (d : list (string * Lookup.pyval)) : Lookup.pyval :=
  match Lookup.dict_find k d with
  | Some v => v
  | None => Lookup.PNone
  end.

(** The first parameter named [display] ends the reading: the function
    returns its [valueString], or [None] when it has none, whatever the
    parameters after it hold, well formed or not, and without a look at
    the path expression.  The parameters before it are those that give
    nothing. *)
Theorem first_display_parameter_wins evaluate d pre dp post :
  Lookup.dict_find "parameter" d
  = Some (Lookup.PList (pre ++ Lookup.PDict dp :: post)) ->
  Forall (fun x => Lookup.scan_parameters [x] = Ok None) pre ->
  Lookup.dict_find "name" dp = Some (Lookup.PStr "display") ->
  Lookup.display_of_response evaluate (Lookup.PDict d)
  = Ok (field "valueString" dp).
Proof.
  intros Hp Hpre Hn. unfold Lookup.display_of_response. simpl Lookup.py_get.
  rewrite Hp. simpl. rewrite (scan_parameters_skip _ _ Hpre).
  rewrite scan_parameters_cons. simpl. rewrite Hn. reflexivity.
Qed.

(** An answer whose first parameter names the code system and whose
    second is the display; a number stands where a third parameter
    should. *)
Definition answer_with_display : list (string * Lookup.pyval) :=
  [("resourceType", Lookup.PStr "Parameters");
   ("parameter",
    Lookup.PList [Lookup.PDict [("name", Lookup.PStr "name");
                                ("valueString", Lookup.PStr "LOINC")];
                  Lookup.PDict [("name", Lookup.PStr "display");
                                ("valueString", Lookup.PStr "Glucose")];
                  Lookup.PInt 3])].

Lemma first_display_parameter_wins_witness :
  Lookup.display_of_response (fun _ _ => Raise (OtherError "not evaluated"))
    (Lookup.PDict answer_with_display)
  = Ok (Lookup.PStr "Glucose").
Proof.
  apply (first_display_parameter_wins _ answer_with_display
           [Lookup.PDict [("name", Lookup.PStr "name");
                          ("valueString", Lookup.PStr "LOINC")]]
           [("name", Lookup.PStr "display"); ("valueString", Lookup.PStr "Glucose")]
           [Lookup.PInt 3]).
  - reflexivity.
  - constructor; [reflexivity|constructor].
  - reflexivity.
Defined.

(** *** Properties and their parts *)

Definition is_dict (x : Lookup.pyval) : bool :=
  match x with
  | Lookup.PDict _ => true
  | _ => false
  end.

(** A part named [preferred] whose [valueBoolean] is true. *)
Definition is_preferred (part : Lookup.pyval) : bool :=
  match part with
  | Lookup.PDict p =>
      Lookup.eq_str (field "name" p) "preferred"
      && Lookup.truthy (field "valueBoolean" p)
  | _ => false
  end.

(** A part named [display]. *)
Definition is_display_part (part : Lookup.pyval) : bool :=
  match part with
  | Lookup.PDict p => Lookup.eq_str (field "name" p) "display"
  | _ => false
  end.

(** What the innermost loop gives on parts that are dictionaries. *)
Definition display_of_parts (parts : list Lookup.pyval) : option Lookup.pyval :=
  match find is_display_part parts with
  | Some (Lookup.PDict p) => Some (field "valueString" p)
  | _ => None
  end.

Lemma scan_subparts_dicts (parts : list Lookup.pyval) :
  forallb is_dict parts = true ->
  Lookup.scan_subparts parts = Ok (display_of_parts parts).
Proof.
  unfold display_of_parts.
  induction parts as [|[| | | | | |p] rest IH]; simpl; try discriminate;
    [reflexivity|].
  intros H. fold (field "name" p). destruct (Lookup.eq_str (field "name" p) "display").
  - reflexivity.
  - now apply IH.
Qed.

Lemma scan_parts_dicts (dp : list (string * Lookup.pyval))
    (all parts : list Lookup.pyval) :
  Lookup.dict_find "part" dp = Some (Lookup.PList all) ->
  forallb is_dict all = true ->
  forallb is_dict parts = true ->
  Lookup.scan_parts (Lookup.PDict dp) parts
  = Ok (if existsb is_preferred parts then display_of_parts all else None).
Proof.
  intros Hall Hd.
  induction parts as [|[| | | | | |p] rest IH]; simpl; try discriminate;
    [reflexivity|].
  intros H. fold (field "name" p).
  destruct (Lookup.eq_str (field "name" p) "preferred"); simpl.
  - fold (field "valueBoolean" p).
    destruct (Lookup.truthy (field "valueBoolean" p)); simpl.
    + rewrite Hall. simpl. rewrite (scan_subparts_dicts all Hd). simpl.
      destruct (display_of_parts all) as [v|] eqn:E; [reflexivity|].
      rewrite (IH H). now destruct (existsb is_preferred rest).
    + now apply IH.
  - now apply IH.
Qed.

(** A parameter named [property] whose parts are dictionaries gives the
    [valueString] of its first part named [display] when one of its
    parts is named [preferred] with a true [valueBoolean], wherever the
    two parts stand in the list; it is passed over when it has no such
    preferred part, and also when it has no part named [display]. *)
Theorem preferred_property_display dp parts post :
  Lookup.dict_find "name" dp = Some (Lookup.PStr "property") ->
  Lookup.dict_find "part" dp = Some (Lookup.PList parts) ->
  forallb is_dict parts = true ->
  Lookup.scan_parameters (Lookup.PDict dp :: post)
  = match (if existsb is_preferred parts then display_of_parts parts else None) with
    | Some v => Ok (Some v)
    | None => Lookup.scan_parameters post
    end.
Proof.
  intros Hn Hp Hd. simpl. rewrite Hn. simpl. rewrite Hp. simpl.
  rewrite (scan_parts_dicts dp parts parts Hp Hd Hd). simpl.
  destruct (existsb is_preferred parts); [|reflexivity].
  destruct (display_of_parts parts); reflexivity.
Qed.

(** A property whose display part stands before its preferred part. *)
Definition property_display_first : list (string * Lookup.pyval) :=
  [("name", Lookup.PStr "property");
   ("part",
    Lookup.PList [Lookup.PDict [("name", Lookup.PStr "display");
                                ("valueString", Lookup.PStr "Glucose [Mass/volume]")];
                  Lookup.PDict [("name", Lookup.PStr "preferred");
                                ("valueBoolean", Lookup.PBool true)]])].

Lemma preferred_property_display_witness :
  Lookup.scan_parameters [Lookup.PDict property_display_first]
  = Ok (Some (Lookup.PStr "Glucose [Mass/volume]")).
Proof.
  exact (preferred_property_display property_display_first _ [] eq_refl eq_refl eq_refl).
Defined.

(** *** Answers that are read without an exception *)

(** A parameter that is a dictionary whose [part], if any, is a list of
    dictionaries. *)
Definition well_formed_parameter (x : Lookup.pyval) : bool :=
  match x with
  | Lookup.PDict d =>
      match Lookup.dict_find "part" d with
      | None => true
      | Some (Lookup.PList parts) => forallb is_dict parts
      | Some _ => false
      end
  | _ => false
  end.

Lemma scan_parameters_well_formed (params : list Lookup.pyval) :
  forallb well_formed_parameter params = true ->
  exists r, Lookup.scan_parameters params = Ok r.
Proof.
  induction params as [|x rest IH]; [simpl; eauto|].
  simpl forallb. intros H. apply andb_true_iff in H. destruct H as [Hx Hr].
  destruct (IH Hr) as (r & Er).
  rewrite scan_parameters_cons, Er.
  assert (Hone : exists r1, Lookup.scan_parameters [x] = Ok r1).
  { destruct x as [| | | | | |d]; try discriminate. simpl in Hx. simpl.
    fold (field "name" d).
    destruct (Lookup.eq_str (field "name" d) "display"); [simpl; eauto|].
    destruct (Lookup.eq_str (field "name" d) "property"); [|simpl; eauto].
    simpl. destruct (Lookup.dict_find "part" d) as [[| | | | |parts|]|] eqn:Ep;
      try discriminate.
    - simpl. rewrite (scan_parts_dicts d parts parts Ep Hx Hx). simpl.
      destruct (existsb is_preferred parts); [|eauto].
      destruct (display_of_parts parts); eauto.
    - simpl. eauto. }
  destruct Hone as ([v|] & ->); eauto.
Qed.

(** An answer that has no [parameter], or whose [parameter] is a list of
    dictionaries with lists of dictionaries as parts, is read without an
    exception, as long as the path expression evaluates.  An answer
    whose [parameter] is null is not: it raises [TypeError]. *)
Theorem well_formed_answer_is_read evaluate d v :
  evaluate (Lookup.PDict d) Lookup.fallback_expr = Ok v ->
  (match Lookup.dict_find "parameter" d with
   | None => True
   | Some (Lookup.PList params) => forallb well_formed_parameter params = true
   | Some _ => False
   end ->
   exists r, Lookup.display_of_response evaluate (Lookup.PDict d) = Ok r)
  /\ (Lookup.dict_find "parameter" d = Some Lookup.PNone ->
      Lookup.display_of_response evaluate (Lookup.PDict d)
      = Raise (TypeError "'NoneType' object is not iterable")).
Proof.
  intros He. split.
  - intros Hwf. unfold Lookup.display_of_response. simpl Lookup.py_get.
    assert (Hfb : exists r,
               Lookup.rbind (evaluate (Lookup.PDict d) Lookup.fallback_expr)
                 (fun display =>
                    if Lookup.truthy display
                    then match display with
                         | Lookup.PList (x :: _) => Ok x
                         | _ => Ok display
                         end
                    else Ok Lookup.PNone) = Ok r).
    { rewrite He. simpl. destruct (Lookup.truthy v); [|eauto].
      destruct v as [| | | | |[|x xs]|]; eauto. }
    destruct (Lookup.dict_find "parameter" d) as [[| | | | |params|]|];
      try contradiction.
    + simpl. destruct (scan_parameters_well_formed params Hwf) as ([r|] & ->);
        simpl; eauto.
    + simpl. exact Hfb.
  - intros Hp. unfold Lookup.display_of_response. simpl Lookup.py_get.
    rewrite Hp. reflexivity.
Qed.

Lemma well_formed_answer_is_read_witness :
  exists r,
    Lookup.display_of_response (fun _ _ => Ok (Lookup.PList []))
      (Lookup.PDict [("resourceType", Lookup.PStr "Parameters");
                     ("parameter", Lookup.PList [Lookup.PDict property_display_first])])
    = Ok r.
Proof.
  exact (proj1 (well_formed_answer_is_read (fun _ _ => Ok (Lookup.PList []))
                  [("resourceType", Lookup.PStr "Parameters");
                   ("parameter", Lookup.PList [Lookup.PDict property_display_first])]
                  (Lookup.PList []) eq_refl) eq_refl).
Defined.

(** *** The path expression *)

(** When the parameters give nothing, and also when the answer has no
    [parameter] at all, the function returns what the path expression
    evaluates to: the first element of a list that is not empty, [None]
    for an empty list and for any other false value, the value itself
    otherwise; an exception of the evaluation is raised as it is. *)
Theorem fallback_when_nothing_found evaluate d :
  match Lookup.dict_find "parameter" d with
  | None => True
  | Some (Lookup.PList params) => Lookup.scan_parameters params = Ok None
  | Some _ => False
  end ->
  Lookup.display_of_response evaluate (Lookup.PDict d)
  = match evaluate (Lookup.PDict d) Lookup.fallback_expr with
    | Raise e => Raise e
    | Ok (Lookup.PList (x :: _)) => Ok x
    | Ok (Lookup.PList []) => Ok Lookup.PNone
    | Ok v => if Lookup.truthy v then Ok v else Ok Lookup.PNone
    end.
Proof.
  intros H. unfold Lookup.display_of_response. simpl Lookup.py_get.
  assert (E : Lookup.rbind
                (Lookup.rbind
                   (Lookup.py_iter
                      match Lookup.dict_find "parameter" d with
                      | Some x => x
                      | None => Lookup.PList []
                      end) Lookup.scan_parameters)
                (fun r => match r with
                          | Some v => Ok (Some v)
                          | None => Ok None
                          end) = Ok None).
  { destruct (Lookup.dict_find "parameter" d) as [[| | | | |params|]|];
      try contradiction; simpl; [now rewrite H|reflexivity]. }
  simpl Lookup.rbind at 1.
  destruct (Lookup.dict_find "parameter" d) as [[| | | | |params|]|];
    try contradiction; simpl; rewrite ?H; simpl;
    (destruct (evaluate (Lookup.PDict d) Lookup.fallback_expr) as [v|e];
     [|reflexivity]; simpl;
     destruct v as [|b|z|f|s|[|x xs]|dd]; simpl; try reflexivity;
     destruct (Lookup.truthy _); reflexivity).
Qed.

Lemma fallback_when_nothing_found_witness :
  Lookup.display_of_response
    (fun _ _ => Ok (Lookup.PList [Lookup.PStr "Glucose"; Lookup.PStr "Glu"]))
    (Lookup.PDict [("resourceType", Lookup.PStr "Parameters")])
  = Ok (Lookup.PStr "Glucose").
Proof.
  exact (fallback_when_nothing_found
           (fun _ _ => Ok (Lookup.PList [Lookup.PStr "Glucose"; Lookup.PStr "Glu"]))
           [("resourceType", Lookup.PStr "Parameters")] I).
Defined.

(** ** The query *)

(** The value of a hexadecimal digit. *)
Definition hex_val (c : ascii) : nat :=
  let n := PyStr.code c in
  if (n <? 58)%nat then n - 48 else n - 55.

(** The reading of a quoted text: [%XY] is the byte with the digits
    [X] and [Y]. *)
Fixpoint unquote_chars (l : list ascii) : list ascii :=
  match l with
  | [] => []
  | c :: r =>
      if Ascii.eqb c "%" then
        match r with
        | h1 :: h2 :: r' => ascii_of_nat (16 * hex_val h1 + hex_val h2) :: unquote_chars r'
        | _ => c :: unquote_chars r
        end
      else c :: unquote_chars r
  end.

Lemma unquote_quote_byte (c : ascii) (rest : list ascii) :
  unquote_chars (Lookup.quote_byte c ++ rest) = c :: unquote_chars rest.
Proof.
  destruct c as [[] [] [] [] [] [] [] []]; reflexivity.
Qed.

Lemma unquote_quote_chars (l : list ascii) :
  unquote_chars (flat_map Lookup.quote_byte l) = l.
Proof.
  induction l as [|c l IH]; [reflexivity|].
  simpl flat_map. rewrite unquote_quote_byte, IH. reflexivity.
Qed.

Lemma quote_byte_chars (c x : ascii) :
  In x (Lookup.quote_byte c) ->
  Lookup.always_safe x = true \/ x = "%"%char.
Proof.
  destruct c as [[] [] [] [] [] [] [] []]; simpl;
    intuition (subst; auto).
Qed.

Lemma chars_of_chars_id (l : list ascii) : PyStr.chars (PyStr.of_chars l) = l.
Proof. apply list_ascii_of_string_of_list_ascii. Qed.

(** The quoted system holds only letters, digits, [_.-~] and [%], so
    none of the characters that structure a query ([&], [=], [?], [#],
    [/], [:], [+] and the blank); and quoting loses nothing: two systems
    with the same quoted text are the same, and so are two systems with
    the same query for one code. *)
Theorem quoted_system_is_safe (system : string) :
  (forall c, In c (PyStr.chars (Lookup.quote system)) ->
             Lookup.always_safe c = true \/ c = "%"%char)
  /\ (forall c, In c (PyStr.chars "&=?#/:+ ") ->
                ~ In c (PyStr.chars (Lookup.quote system)))
  /\ (forall system', Lookup.quote system = Lookup.quote system' ->
                      system = system')
  /\ (forall code system', Lookup.query code system = Lookup.query code system' ->
                           system = system').
Proof.
  assert (Hsafe : forall c, In c (PyStr.chars (Lookup.quote system)) ->
                            Lookup.always_safe c = true \/ c = "%"%char).
  { intros c Hc. unfold Lookup.quote in Hc. rewrite chars_of_chars_id in Hc.
    apply in_flat_map in Hc. destruct Hc as (b & _ & Hb).
    exact (quote_byte_chars b c Hb). }
  assert (Hinj : forall s s', Lookup.quote s = Lookup.quote s' -> s = s').
  { intros s s' E. unfold Lookup.quote in E.
    apply (f_equal PyStr.chars) in E. rewrite !chars_of_chars_id in E.
    apply (f_equal unquote_chars) in E. rewrite !unquote_quote_chars in E.
    rewrite <- (string_of_list_ascii_of_string s),
            <- (string_of_list_ascii_of_string s').
    unfold PyStr.chars in E. now rewrite E. }
  split; [exact Hsafe|]. split; [|split].
  - intros c Hc Hin. destruct (Hsafe c Hin) as [H|H];
      simpl in Hc; intuition (subst; discriminate).
  - intros s'. apply Hinj.
  - intros code s' E. unfold Lookup.query in E.
    assert (Happ : forall a b c : string, a ++ b = a ++ c -> b = c).
    { induction a as [|x a IH]; simpl; intros b c H; [exact H|].
      injection H as H. now apply IH. }
    apply Happ in E. apply Happ in E. apply Happ in E.
    assert (Htail : forall a b t : string,
               String.length a = String.length b -> a ++ t = b ++ t -> a = b).
    { induction a as [|x a IH]; destruct b as [|y b]; simpl; intros t Hl H;
        try discriminate; [reflexivity|].
      injection H as -> H. f_equal. apply (IH b t); [lia|exact H]. }
    assert (Hlen : forall a b : string,
               String.length (a ++ b) = (String.length a + String.length b)%nat).
    { induction a as [|x a IH]; simpl; intros b; [reflexivity|]. now rewrite IH. }
    apply Hinj. apply (Htail _ _ ("&code=" ++ code)); [|exact E].
    apply (f_equal String.length) in E. rewrite !Hlen in E. lia.
Qed.
